(** * ADGM corporate agent: the retrieval-augmented clause check and the
      red-flag annotator, embedded from [utils/rag_utils.py],
      [utils/red_flags.py] and the calling loop of [app.py].

    Python values are modelled as follows.  A [str] is a [string] whose
    characters are read as code points below 256; an [int] is a [Z]; [None]
    is [PNone] (or [None] of an option where a field is "string or None");
    an exception is a class with the text that [str(e)] yields; a call that
    can raise returns a [result].  Whatever the repository imports from
    libraries (the OS, LangChain, FAISS, [json], [re], the language model)
    is an interface, instantiated by an in-memory world for concrete runs. *)

From Stdlib Require Import String Ascii List ZArith Lia Bool Arith Sorted.
Import ListNotations.
Local Open Scope string_scope.

(* ===================================================================== *)
(** * Part I: definitions                                                 *)
(* ===================================================================== *)

(** ** Python primitives *)
Module Py.

(** The class of an exception.  The first six are classes derived from
    [Exception], [OtherError] standing for any other such class by its
    name; the last four derive from [BaseException] without deriving from
    [Exception]: the three of the language, and [OtherBaseException] for
    one that a library defines. *)
Inductive exc_class : Type :=
| AttributeError
| FileNotFoundError
| RuntimeError
| ValueError
| JSONDecodeError
| OtherError (name : string)
| KeyboardInterrupt
| SystemExit
| GeneratorExit
| OtherBaseException (name : string).

(** An exception object; [exc_msg] is what [str(e)] and [f"{e}"] give. *)
Record exn : Type := mk_exn { exc_type : exc_class; exc_msg : string }.

(** [isinstance(e, Exception)]: whether an [except Exception] clause
    catches [e]. *)
Definition isinstance_Exception (e : exn) : bool :=
  match exc_type e with
  | KeyboardInterrupt | SystemExit | GeneratorExit | OtherBaseException _ =>
      false
  | _ => true
  end.

Inductive result (A : Type) : Type :=
| Ok (a : A)
| Raise (e : exn).
Arguments Ok {A} a.
Arguments Raise {A} e.

Definition bind {A B} (r : result A) (k : A -> result B) : result B :=
  match r with
  | Ok a => k a
  | Raise e => Raise e
  end.

Definition is_ok {A} (r : result A) : bool :=
  match r with Ok _ => true | Raise _ => false end.

(** *** Characters and strings *)

Definition dquote : ascii := "034"%char.
Definition nl : ascii := "010"%char.
Definition NL : string := String nl "".
Definition DQ : string := String dquote "".

(** [str.isspace] on the code points below 256. *)
Definition is_space (c : ascii) : bool :=
  let n := nat_of_ascii c in
  (((9 <=? n) && (n <=? 13)) || ((28 <=? n) && (n <=? 32))
   || (n =? 133) || (n =? 160))%nat.

Fixpoint lstrip (s : string) : string :=
  match s with
  | "" => ""
  | String c s' => if is_space c then lstrip s' else s
  end.

Fixpoint rstrip (s : string) : string :=
  match s with
  | "" => ""
  | String c s' =>
      match rstrip s' with
      | "" => if is_space c then "" else String c ""
      | r => String c r
      end
  end.

(** [s.strip()] *)
Definition strip (s : string) : string := rstrip (lstrip s).

(** [str.lower] on the code points below 256: A-Z and the accented
    capitals U+00C0..U+00DE (the multiplication sign U+00D7 apart). *)
Definition lower_char (c : ascii) : ascii :=
  let n := nat_of_ascii c in
  if (((65 <=? n) && (n <=? 90))
      || ((192 <=? n) && (n <=? 222) && negb (n =? 215)))%nat
  then ascii_of_nat (n + 32) else c.

Fixpoint lower (s : string) : string :=
  match s with
  | "" => ""
  | String c s' => String (lower_char c) (lower s')
  end.

Definition len (s : string) : Z := Z.of_nat (String.length s).

Fixpoint find_from (sub s : string) (i : Z) : Z :=
  if prefix sub s then i
  else match s with
       | "" => (-1)%Z
       | String _ s' => find_from sub s' (i + 1)%Z
       end.

(** [s.find(sub)]: lowest index of an occurrence, [-1] when there is none. *)
Definition find (s sub : string) : Z := find_from sub s 0%Z.

Fixpoint rfind_from (sub s : string) (i : Z) : Z :=
  match s with
  | "" => if prefix sub "" then i else (-1)%Z
  | String _ s' =>
      let r := rfind_from sub s' (i + 1)%Z in
      if (0 <=? r)%Z then r else if prefix sub s then i else (-1)%Z
  end.

(** [s.rfind(sub)]: highest index of an occurrence, [-1] when there is none. *)
Definition rfind (s sub : string) : Z := rfind_from sub s 0%Z.

(** [sub in s] *)
Definition contains (sub s : string) : bool := (0 <=? find s sub)%Z.

(** Normalisation of one slice bound: negative bounds count from the
    end, and both are clamped to [0 .. len]. *)
Definition slice_bound (n i : Z) : Z :=
  if (i <? 0)%Z then Z.max 0 (n + i) else Z.min i n.

(** [s[start:stop]] *)
Definition slice (s : string) (start stop : Z) : string :=
  let lo := slice_bound (len s) start in
  let hi := slice_bound (len s) stop in
  if (lo <? hi)%Z then substring (Z.to_nat lo) (Z.to_nat (hi - lo)) s else "".

(** [s.endswith(suf)] *)
Definition endswith (s suf : string) : bool :=
  let n := String.length s in
  let m := String.length suf in
  (m <=? n)%nat && (substring (n - m) m s =? suf).

(** [sep.join(parts)] *)
Definition join (sep : string) (parts : list string) : string :=
  String.concat sep parts.

(** *** Values: what [json.loads] can return and what a [dict] can hold *)

#[warnings="-register-all"]
Inductive pyval : Type :=
| PNone
| PBool (b : bool)
| PInt (z : Z)
| PFloat (literal : string)
| PStr (s : string)
| PList (l : list pyval)
| PDict (d : list (string * pyval)).

Fixpoint assoc {A} (k : string) (d : list (string * A)) : option A :=
  match d with
  | [] => None
  | (k', v) :: d' => if k' =? k then Some v else assoc k d'
  end.

(** [d[k] = v]: the entry is replaced in place, or appended. *)
Fixpoint assoc_set {A} (k : string) (v : A) (d : list (string * A))
  : list (string * A) :=
  match d with
  | [] => [(k, v)]
  | (k', v') :: d' =>
      if k' =? k then (k, v) :: d' else (k', v') :: assoc_set k v d'
  end.

(** [k in d] for a dict; [False] for what is no dict. *)
Definition has_key (v : pyval) (k : string) : bool :=
  match v with
  | PDict d => match assoc k d with Some _ => true | None => false end
  | _ => false
  end.

Definition opt_str (o : option string) : pyval :=
  match o with Some s => PStr s | None => PNone end.

End Py.
Import Py.

(** ** [utils/red_flags.py] *)
Module RedFlags.

(** A match object: [m.group(0)], [m.start()], [m.end()]. *)
Record re_match : Type :=
  mk_match { group0 : string; m_start : Z; m_end : Z }.

(** The [re] module, always called with [flags=re.IGNORECASE]:
    [re_finditer pat text] lists the matches from left to right and
    [re_search pat text] tells whether [re.search] finds one. *)
Class Regex : Type :=
  { re_finditer : string -> string -> list re_match;
    re_search : string -> string -> bool }.

(** An issue dict; absent keys are [None]. *)
Record issue : Type :=
  mk_issue { iss_match : option string;
             iss_message : string;
             iss_span : option (Z * Z);
             iss_severity : option string }.

(** A mapped annotation dict. *)
Record annotation : Type :=
  mk_annotation { paragraph_index : Z;
                  flag_text : string;
                  comment : string;
                  severity : string }.

Section Detectors.
Context {RE : Regex}.

Definition jurisdiction_patterns : list (string * string) :=
  [ ("\bUAE Federal (Court|Courts|law|laws)\b",
     "References UAE Federal Courts instead of ADGM Courts");
    ("\bDIFC\b", "References DIFC instead of ADGM");
    ("\bUnited Arab Emirates Federal Courts\b",
     "References UAE Federal Courts instead of ADGM Courts") ].

Definition detect_wrong_jurisdiction (text : string) : list issue :=
  flat_map
    (fun pm : string * string =>
       let (pat, msg) := pm in
       map (fun m => mk_issue (Some (group0 m)) msg
                       (Some (m_start m, m_end m)) (Some "High"))
           (re_finditer pat text))
    jurisdiction_patterns.

Definition signature_pattern : string :=
  "(signature|signed by|for and on behalf|authorised signatory|signature:)".

Definition detect_missing_signature_block (paragraphs : list string)
  : list issue :=
  let joined := join NL paragraphs in
  if re_search signature_pattern joined then []
  else [ mk_issue None "No signature block detected in document."
           None (Some "High") ].

Definition ambiguous_patterns : list string :=
  [ "\bmay\b"; "\bmight\b"; "\bendeavour\b"; "\bbest endeavours\b";
    "\bbest efforts\b" ].

Definition detect_ambiguous_language (text : string) : list issue :=
  flat_map
    (fun pat =>
       map (fun m =>
              mk_issue (Some (group0 m))
                ("Ambiguous/non-binding phrase: '" ++ group0 m ++ "'")
                (Some (m_start m, m_end m)) (Some "Medium"))
           (re_finditer pat text))
    ambiguous_patterns.

(** The inner [for i, p in enumerate(paragraphs)] loop with its [break]:
    the index of the first paragraph whose lower-cased text contains
    [needle], counting from [i]; [-1] when the loop ends without a hit. *)
Fixpoint first_containing (needle : string) (paragraphs : list string)
  (i : Z) : Z :=
  match paragraphs with
  | [] => (-1)%Z
  | p :: rest =>
      if contains needle (lower p) then i
      else first_containing needle rest (i + 1)%Z
  end.

(** [if iss.get("match"):] holds for a string that is not empty. *)
Definition truthy (o : option string) : bool :=
  match o with
  | Some s => negb (s =? "")
  | None => false
  end.

Definition locate (iss : issue) (paragraphs : list string) : Z :=
  let para_idx :=
    if truthy (iss_match iss)
    then match iss_match iss with
         | Some m => first_containing (lower m) paragraphs 0%Z
         | None => (-1)%Z
         end
    else (-1)%Z in
  if (para_idx =? -1)%Z then 0%Z else para_idx.

Definition map_issue (paragraphs : list string) (iss : issue)
  : annotation :=
  mk_annotation
    (locate iss paragraphs)
    (match iss_match iss with Some m => m | None => "" end)
    (iss_message iss)
    (match iss_severity iss with Some s => s | None => "Medium" end).

Definition all_issues (text : string) (paragraphs : list string)
  : list issue :=
  detect_wrong_jurisdiction text
  ++ detect_ambiguous_language text
  ++ detect_missing_signature_block paragraphs.

Definition run_all_checks (text : string) (paragraphs : list string)
  : list annotation :=
  map (map_issue paragraphs) (all_issues text paragraphs).

End Detectors.

(** [i] is the index of the first paragraph that contains [flag],
    letter case apart. *)
Definition first_paragraph_with (flag : string) (paragraphs : list string)
  (i : Z) : Prop :=
  exists n p,
    i = Z.of_nat n
    /\ nth_error paragraphs n = Some p
    /\ contains (lower flag) (lower p) = true
    /\ forall j q, (j < n)%nat -> nth_error paragraphs j = Some q ->
                   contains (lower flag) (lower q) = false.

(** The match text of [iss], if it has one, occurs in no paragraph. *)
Definition occurs_nowhere (iss : issue) (paragraphs : list string) : Prop :=
  forall m, iss_match iss = Some m ->
            forall p, In p paragraphs -> contains (lower m) (lower p) = false.

End RedFlags.

(** ** [utils/rag_utils.py] *)
Module RagUtils.

Definition VECTORSTORE_DIR : string := "legal_refs/faiss_store".
Definition LEGAL_REFS_DIR : string := "legal_refs".
Definition HF_EMBEDDING_MODEL : string := "all-MiniLM-L6-v2".

(** A LangChain [Document]: [page_content] and [metadata.get('source')]. *)
Record Document : Type :=
  mk_doc { page_content : string; metadata_source : option string }.

(** One element of a search result: a [Document], or anything else,
    which the code renders with [str(d)]. *)
Inductive hit : Type :=
| HitDoc (d : Document)
| HitOther (str_d : string).

(** The vector store library: the type of store objects and the one
    method the clause check calls, [vs.similarity_search(query, k=k)]. *)
Class VectorStore : Type :=
  { FAISS : Type;
    similarity_search : FAISS -> string -> Z -> result (list hit) }.

(** *** Paths ([posixpath]) *)

Fixpoint rstrip_slash (s : string) : string :=
  match s with
  | "" => ""
  | String c s' =>
      match rstrip_slash s' with
      | "" => if Ascii.eqb c "/" then "" else String c ""
      | r => String c r
      end
  end.

(** [os.path.dirname] *)
Definition dirname (p : string) : string :=
  let i := (rfind p "/" + 1)%Z in
  let head := slice p 0 i in
  match rstrip_slash head with
  | "" => head
  | stripped => stripped
  end.

(** [os.path.join(a, b)] *)
Definition path_join (a b : string) : string :=
  if prefix "/" b then b
  else if (a =? "") || endswith a "/" then a ++ b
  else a ++ "/" ++ b.

(** *** The operating system and the libraries behind the index

    [fs] is the state of the file system, as far as the reference folder
    and the index location go.  Existence tests, listing and the loaders
    read it; initialising the embeddings, splitting and
    [FAISS.from_documents] work in memory; the two writers,
    [os.makedirs(..., exist_ok=True)] and [FAISS.save_local], return the
    state they leave behind, also when they raise. *)
Class Platform {VS : VectorStore} : Type :=
  { fs : Type;
    Embeddings : Type;
    os_path_exists : fs -> string -> bool;
    os_listdir : fs -> string -> result (list string);
    os_makedirs : string -> fs -> result unit * fs;
    HuggingFaceEmbeddings : string -> result Embeddings;
    PyPDFLoader_load : fs -> string -> result (list Document);
    TextLoader_load : fs -> string -> result (list Document);
    split_documents : Z -> Z -> list Document -> result (list Document);
    FAISS_from_documents : list Document -> Embeddings -> result FAISS;
    FAISS_save_local : FAISS -> string -> fs -> result unit * fs;
    FAISS_load_local : fs -> string -> Embeddings -> result FAISS }.

Section BuildLoad.
Context {VS : VectorStore} {P : Platform}.

(** The body of [for fname in os.listdir(legal_folder)] for one name. *)
Definition load_file (disk : fs) (legal_folder fname : string)
  : result (list Document) :=
  let path := path_join legal_folder fname in
  if endswith (lower fname) ".pdf" then PyPDFLoader_load disk path
  else if endswith (lower fname) ".txt" then TextLoader_load disk path
  else Ok [].

(** The loop: [docs.extend(...)] for every name, in listing order; the
    first loader that raises ends it. *)
Fixpoint load_files (disk : fs) (legal_folder : string)
  (names : list string) (docs : list Document)
  : result (list Document) :=
  match names with
  | [] => Ok docs
  | fname :: rest =>
      bind (load_file disk legal_folder fname)
           (fun loaded =>
              load_files disk legal_folder rest (docs ++ loaded))
  end.

(** [os.listdir] and the loop together: the raw documents. *)
Definition load_corpus (disk : fs) (legal_folder : string)
  : result (list Document) :=
  bind (os_listdir disk legal_folder)
       (fun names => load_files disk legal_folder names []).

Definition build_vector_store (legal_folder save_dir hf_model : string)
  (disk : fs) : result FAISS * fs :=
  if negb (os_path_exists disk legal_folder) then
    (Raise (mk_exn FileNotFoundError
              ("Legal refs folder not found: " ++ legal_folder)), disk)
  else
    match HuggingFaceEmbeddings hf_model with
    | Raise e =>
        (Raise (mk_exn RuntimeError
                  ("Failed to initialize embeddings: " ++ exc_msg e)),
         disk)
    | Ok embeddings =>
        match load_corpus disk legal_folder with
        | Raise e => (Raise e, disk)
        | Ok [] =>
            (Raise (mk_exn ValueError
                      "No legal reference documents found in legal_refs/"),
             disk)
        | Ok docs =>
            match split_documents 800 100 docs with
            | Raise e => (Raise e, disk)
            | Ok chunks =>
                match FAISS_from_documents chunks embeddings with
                | Raise e =>
                    (Raise (mk_exn RuntimeError
                              ("Failed to build FAISS vectorstore: "
                               ++ exc_msg e)), disk)
                | Ok vs =>
                    match os_makedirs (dirname save_dir) disk with
                    | (Raise e, disk1) => (Raise e, disk1)
                    | (Ok _, disk1) =>
                        match FAISS_save_local vs save_dir disk1 with
                        | (Raise e, disk2) =>
                            (Raise (mk_exn RuntimeError
                                      ("Failed to save FAISS vectorstore: "
                                       ++ exc_msg e)), disk2)
                        | (Ok _, disk2) => (Ok vs, disk2)
                        end
                    end
                end
            end
        end
    end.

Definition load_vector_store (save_dir hf_model : string) (disk : fs)
  : result FAISS :=
  if negb (os_path_exists disk save_dir) then
    Raise (mk_exn FileNotFoundError
             "FAISS vectorstore not found. Run build_vector_store() first.")
  else
    bind (HuggingFaceEmbeddings hf_model)
         (fun embeddings => FAISS_load_local disk save_dir embeddings).

End BuildLoad.

(** *** The language-model handle

    What a call on the handle gives back: a [str], or another object
    (kept as its [str()] rendering, which is all the code asks of it). *)
Inductive pyobj : Type :=
| ObjStr (s : string)
| ObjOther (rendering : string).

(** The result object of [llm.generate]: [gen_text] is the text that
    [gen.generations[0][0].text.strip()] strips ([None] when that
    expression raises), [gen_str] is [str(gen)], which is taken to
    return. *)
Record genresult : Type :=
  mk_gen { gen_text : option string; gen_str : string }.

(** A handle over a world [W] (the remote service, the network): every
    call consumes the world and returns the next one.  [llm(prompt)] and
    [llm.__call__(prompt)] are the same operation, [llm_call]; a method
    that [hasattr] does not find is [None]. *)
Record Backend (W : Type) : Type :=
  mk_backend
    { llm_call : string -> W -> result pyobj * W;
      llm_predict : option (string -> W -> result pyobj * W);
      llm_generate : option (list string -> W -> result genresult * W) }.
Arguments llm_call {W} _ _ _.
Arguments llm_predict {W} _.
Arguments llm_generate {W} _.
Arguments mk_backend {W} _ _ _.

Section Adapter.
Context {VS : VectorStore}.
Variable W : Type.

(** The three ways out of one of the first three [try] blocks:
    [Ok (Some text)] is [return text]; [Ok None] is falling through to the
    code after the block, also by way of its [except Exception] clause;
    [Raise e] is an exception that the clause does not catch and that
    leaves the function. *)
Definition block_exit : Type := result (option string).

(** First [try] block: the direct call. *)
Definition try_direct (llm : Backend W) (prompt : string) (w : W)
  : block_exit * W :=
  match llm_call llm prompt w with
  | (Ok (ObjStr resp), w') => (Ok (Some (strip resp)), w')
  | (Ok (ObjOther _), w') => (Ok None, w')
  | (Raise e, w') =>
      if isinstance_Exception e then (Ok None, w') else (Raise e, w')
  end.

(** Second [try] block: [predict], when the handle has it. *)
Definition try_predict (llm : Backend W) (prompt : string) (w : W)
  : block_exit * W :=
  match llm_predict llm with
  | None => (Ok None, w)
  | Some predict =>
      match predict prompt w with
      | (Ok (ObjStr resp), w') => (Ok (Some (strip resp)), w')
      | (Ok (ObjOther _), w') => (Ok None, w')
      | (Raise e, w') =>
          if isinstance_Exception e then (Ok None, w') else (Raise e, w')
      end
  end.

(** Third [try] block: [generate], the nested text or [str(gen)]. *)
Definition try_generate (llm : Backend W) (prompt : string) (w : W)
  : block_exit * W :=
  match llm_generate llm with
  | None => (Ok None, w)
  | Some generate =>
      match generate [prompt] w with
      | (Ok gen, w') =>
          (Ok (Some (match gen_text gen with
                     | Some text => strip text
                     | None => gen_str gen
                     end)), w')
      | (Raise e, w') =>
          if isinstance_Exception e then (Ok None, w') else (Raise e, w')
      end
  end.

(** Last [try] block: [llm.__call__(prompt)]; its [except Exception as e]
    raises the [RuntimeError], any other exception passes as it is. *)
Definition last_call (llm : Backend W) (prompt : string) (w : W)
  : result string * W :=
  match llm_call llm prompt w with
  | (Ok (ObjStr resp), w') => (Ok (strip resp), w')
  | (Ok (ObjOther rendering), w') => (Ok rendering, w')
  | (Raise e, w') =>
      if isinstance_Exception e
      then (Raise (mk_exn RuntimeError ("LLM call failed: " ++ exc_msg e)),
            w')
      else (Raise e, w')
  end.

Definition _call_llm_tolerant (llm : option (Backend W)) (prompt : string)
  (w : W) : result string * W :=
  match llm with
  | None => (Raise (mk_exn ValueError "LLM instance is None"), w)
  | Some h =>
      match try_direct h prompt w with
      | (Raise e, w1) => (Raise e, w1)
      | (Ok (Some text), w1) => (Ok text, w1)
      | (Ok None, w1) =>
          match try_predict h prompt w1 with
          | (Raise e, w2) => (Raise e, w2)
          | (Ok (Some text), w2) => (Ok text, w2)
          | (Ok None, w2) =>
              match try_generate h prompt w2 with
              | (Raise e, w3) => (Raise e, w3)
              | (Ok (Some text), w3) => (Ok text, w3)
              | (Ok None, w3) => last_call h prompt w3
              end
          end
      end
  end.

(** *** The clause check *)

Definition PROMPT_TEMPLATE (clause context : string) : string :=
  "You are an expert legal compliance assistant for ADGM jurisdiction."
  ++ NL ++ NL
  ++ "Task:" ++ NL
  ++ "- Given the user's clause and the ADGM context snippets below, determine compliance." ++ NL
  ++ "- If non-compliant, explain the issue and provide one concrete improved clause suggestion." ++ NL
  ++ "- If possible include the snippet's filename or short citation." ++ NL
  ++ NL
  ++ "Return a JSON object exactly with keys:" ++ NL
  ++ "{" ++ DQ ++ "compliant" ++ DQ ++ ": true/false, "
  ++ DQ ++ "issue" ++ DQ ++ ": " ++ DQ ++ "..." ++ DQ ++ ", "
  ++ DQ ++ "suggestion" ++ DQ ++ ": " ++ DQ ++ "..." ++ DQ ++ ", "
  ++ DQ ++ "citation" ++ DQ ++ ": " ++ DQ ++ "..." ++ DQ ++ "}" ++ NL
  ++ NL
  ++ "User clause:" ++ NL
  ++ clause ++ NL
  ++ NL
  ++ "Context (relevant snippets):" ++ NL
  ++ context ++ NL.

(** One element of the list comprehension that builds the context. *)
Definition render_hit (d : hit) : string :=
  match d with
  | HitDoc doc =>
      page_content doc ++ NL ++ NL ++ "[SOURCE: "
      ++ match metadata_source doc with
         | Some src => src
         | None => "unknown"
         end
      ++ "]"
  | HitOther str_d => str_d
  end.

Definition context_of (docs : list hit) : string :=
  join (NL ++ NL ++ "---" ++ NL ++ NL) (map render_hit docs).

(** The dict literal
    [{"compliant": None, "issue": .., "suggestion": None, "citation": ..}] *)
Definition judgment (issue citation : option string) : pyval :=
  PDict [ ("compliant", PNone); ("issue", opt_str issue);
          ("suggestion", PNone); ("citation", opt_str citation) ].

Variable json_loads : string -> result pyval.

(** The last [try] block: cut from the first brace to the last, parse.
    [find], [rfind] and the slice of a [str] do not raise, and what
    [json.loads] of the standard library raises on a [str] derives from
    [Exception], so that the [except Exception] of the block catches
    whatever [json_loads] raises. *)
Definition extract_json (raw context : string) : pyval :=
  let start := find raw "{" in
  let end_ := (rfind raw "}" + 1)%Z in
  let json_text := slice raw start end_ in
  match json_loads json_text with
  | Ok data => data
  | Raise _ => judgment (Some raw) (Some context)
  end.

Definition check_clause_with_rag (clause_text : string)
  (vectorstore : option FAISS) (llm : option (Backend W)) (k : Z)
  (w : W) : result pyval * W :=
  match vectorstore with
  | None =>
      (Raise (mk_exn AttributeError
                "'NoneType' object has no attribute 'similarity_search'"),
       w)
  | Some vs =>
      match similarity_search vs clause_text k with
      | Raise e => (Raise e, w)
      | Ok docs =>
          let context := context_of docs in
          match llm with
          | None => (Ok (judgment None (Some context)), w)
          | Some h =>
              let prompt := PROMPT_TEMPLATE clause_text context in
              match _call_llm_tolerant (Some h) prompt w with
              | (Raise e, w') =>
                  if isinstance_Exception e
                  then (Ok (judgment (Some ("LLM error: " ++ exc_msg e))
                              (Some context)), w')
                  else (Raise e, w')
              | (Ok raw, w') => (Ok (extract_json raw context), w')
              end
          end
      end
  end.

End Adapter.

(** *** Observing the calls made on a handle *)










(** The exception [e] came out of a call made on the handle for [prompt],
    which left the world [w']. *)
Definition raised_by_handle {W : Type} (h : Backend W) (prompt : string)
  (e : exn) (w' : W) : Prop :=
  (exists w, llm_call h prompt w = (Raise e, w'))
  \/ (exists predict w,
         llm_predict h = Some predict /\ predict prompt w = (Raise e, w'))
  \/ (exists generate w,
         llm_generate h = Some generate
         /\ generate [prompt] w = (Raise e, w')).


End RagUtils.

(** ** The retriever of the specification

    The repository delegates retrieval to [FAISS.similarity_search] of the
    LangChain library, whose code is not part of it.  The definitions of
    this module follow sections 3 and 4.3 of the specification instead. *)
Module Retriever.
Import RagUtils.

(** Modelled from the spec: the [EmbeddingVector] of section 3, for the
    vectors that FAISS (absent from the repository) keeps; the
    coordinates are integers, as the claims only compare scores. *)
Definition EmbeddingVector : Type := list Z.

(** Modelled from the spec: the [ReferenceFragment] of section 3, for the
    documents that the FAISS docstore (absent from the repository)
    keeps. *)
Record ReferenceFragment : Type :=
  mk_fragment { text : string;
                source_locator : string;
                sequence_position : Z }.

(** Modelled from the spec: the [IndexStore] of section 3, for the store
    behind [FAISS.similarity_search] (LangChain and FAISS, absent from
    the repository): every fragment with its one vector, in insertion
    order, the embedding of queries and the similarity of two vectors. *)
Record IndexStore : Type :=
  mk_store { entries : list (ReferenceFragment * EmbeddingVector);
             embed_query : string -> EmbeddingVector;
             similarity : EmbeddingVector -> EmbeddingVector -> Z }.

(** Modelled from the spec: a candidate of the search that FAISS (absent
    from the repository) runs: insertion rank, fragment, similarity
    score. *)
Record ranked : Type :=
  mk_ranked { rank : nat; fragment : ReferenceFragment; score : Z }.

(** Modelled from the spec: the scoring step of [retrieve] (FAISS, absent
    from the repository): every entry with its rank, counted from [i],
    and its similarity to the query vector. *)
Fixpoint score_entries (S : IndexStore) (q : EmbeddingVector) (i : nat)
  (l : list (ReferenceFragment * EmbeddingVector)) : list ranked :=
  match l with
  | [] => []
  | (f, v) :: l' =>
      mk_ranked i f (similarity S q v) :: score_entries S q (Datatypes.S i) l'
  end.

(** Modelled from the spec: the stable ordering of section 4.3 (FAISS,
    absent from the repository): insertion in front of the first
    candidate that does not score higher. *)
Fixpoint insert_desc (x : ranked) (l : list ranked) : list ranked :=
  match l with
  | [] => [x]
  | y :: l' =>
      if (score y <=? score x)%Z then x :: y :: l'
      else y :: insert_desc x l'
  end.

(** Modelled from the spec: the ordering of section 4.3 (FAISS, absent
    from the repository), by insertion from the last entry to the
    first. *)
Fixpoint sort_desc (l : list ranked) : list ranked :=
  match l with
  | [] => []
  | x :: l' => insert_desc x (sort_desc l')
  end.

(** Modelled from the spec: [retrieve] of section 4.3, standing for
    [FAISS.similarity_search] (absent from the repository): the [k]
    candidates of highest similarity, by descending score, equal scores
    in insertion order. *)
Definition retrieve_ranked (S : IndexStore) (query : string) (k : Z)
  : list ranked :=
  firstn (Z.to_nat k)
    (sort_desc (score_entries S (embed_query S query) 0 (entries S))).

(** Modelled from the spec: the [RetrievalResult] of section 3 that
    [retrieve] (FAISS, absent from the repository) returns: pairs of
    fragment and score. *)
Definition retrieve (S : IndexStore) (query : string) (k : Z)
  : list (ReferenceFragment * Z) :=
  map (fun r => (fragment r, score r)) (retrieve_ranked S query k).

(** Modelled from the spec: the order of a retrieval result (section 4.3;
    FAISS is absent from the repository): higher score first, and among
    equal scores the fragment inserted earlier first. *)
Definition precedes (a b : ranked) : Prop :=
  (score b < score a)%Z \/ (score a = score b /\ rank a < rank b).

(** Modelled from the spec: the [Document] a fragment is handed out as by
    [FAISS.similarity_search] (absent from the repository): its text and
    its source. *)
Definition hit_of (f : ReferenceFragment) : hit :=
  HitDoc (mk_doc (text f) (Some (source_locator f))).

(** Modelled from the spec: a store object of the library (absent from
    the repository) answers searches as the index store [S] of the
    specification does. *)
Definition realises {VS : VectorStore} (vs : FAISS) (S : IndexStore) : Prop :=
  forall query k,
    similarity_search vs query k
    = Ok (map (fun r => hit_of (fst r)) (retrieve S query k)).

End Retriever.

(** ** The part of [app.py] that calls the clause check *)
Module App.
Import RedFlags RagUtils.

Section RagStage.
Context {VS : VectorStore}.
Variable W : Type.
Variable json_loads : string -> result pyval.

(** [paragraphs[p_idx] if p_idx < len(paragraphs) else ""].  The test
    holds for every negative index; the list is then read from its end,
    and below [-len(paragraphs)] the subscript raises [IndexError]. *)
Definition paragraph_at (paragraphs : list string) (p_idx : Z)
  : result string :=
  let n := Z.of_nat (List.length paragraphs) in
  if (p_idx <? n)%Z
  then if (0 <=? p_idx)%Z
       then Ok (nth (Z.to_nat p_idx) paragraphs "")
       else if (- n <=? p_idx)%Z
            then Ok (nth (Z.to_nat (n + p_idx)) paragraphs "")
            else Raise (mk_exn (OtherError "IndexError")
                          "list index out of range")
  else Ok "".

(** The [try] around the call: its [except Exception as e] gives the
    dict, any other exception passes as it is. *)
Definition rag_result_for (para_text : string) (vectorstore : option FAISS)
  (llm : option (Backend W)) (w : W) : result pyval * W :=
  match check_clause_with_rag W json_loads para_text vectorstore llm 3 w with
  | (Ok rag_result, w') => (Ok rag_result, w')
  | (Raise e, w') =>
      if isinstance_Exception e
      then (Ok (PDict [ ("compliant", PNone);
                        ("issue", PStr ("RAG error: " ++ exc_msg e));
                        ("suggestion", PNone); ("citation", PNone) ]), w')
      else (Raise e, w')
  end.

End RagStage.

End App.

(** ** An in-memory world

    Concrete instances of the interfaces, to run the code on explicit
    inputs: a JSON reader for the documents used below, a literal-word
    regular-expression engine, a file system of text files that keeps
    indexes as tables, and a few language-model handles. *)
Module MemWorld.
Import RedFlags RagUtils Retriever.

(** *** A reader for JSON texts

    It covers objects, arrays, strings with the one-letter escapes,
    integers, decimal literals and the constants; [\u] escapes are
    outside it. *)
Module Json.

Definition is_ws (c : ascii) : bool :=
  let n := nat_of_ascii c in
  ((n =? 32) || (n =? 9) || (n =? 10) || (n =? 13))%nat.

Fixpoint skip_ws (s : string) : string :=
  match s with
  | "" => ""
  | String c s' => if is_ws c then skip_ws s' else s
  end.

Definition is_digit (c : ascii) : bool :=
  let n := nat_of_ascii c in ((48 <=? n) && (n <=? 57))%nat.

Definition unescape (c : ascii) : option ascii :=
  let n := nat_of_ascii c in
  if (n =? 34)%nat then Some c
  else if (n =? 92)%nat then Some c
  else if (n =? 47)%nat then Some c
  else if (n =? 98)%nat then Some "008"%char
  else if (n =? 102)%nat then Some "012"%char
  else if (n =? 110)%nat then Some "010"%char
  else if (n =? 114)%nat then Some "013"%char
  else if (n =? 116)%nat then Some "009"%char
  else None.

(** The characters of a string literal after its opening quote. *)
Fixpoint read_string (s : string) : option (string * string) :=
  match s with
  | "" => None
  | String c s' =>
      let n := nat_of_ascii c in
      if (n =? 34)%nat then Some ("", s')
      else if (n =? 92)%nat then
        match s' with
        | "" => None
        | String e s'' =>
            match unescape e, read_string s'' with
            | Some c', Some (body, rest) => Some (String c' body, rest)
            | _, _ => None
            end
        end
      else if (n <? 32)%nat then None
      else match read_string s' with
           | Some (body, rest) => Some (String c body, rest)
           | None => None
           end
  end.

Fixpoint read_digits (s : string) : string * string :=
  match s with
  | "" => ("", "")
  | String c s' =>
      if is_digit c
      then let (ds, rest) := read_digits s' in (String c ds, rest)
      else ("", s)
  end.

Fixpoint digits_value (ds : string) (acc : Z) : Z :=
  match ds with
  | "" => acc
  | String c ds' =>
      digits_value ds' (10 * acc + Z.of_nat (nat_of_ascii c - 48))%Z
  end.

(** The integer part: one or more digits, no leading zero. *)
Definition read_int (s : string) : option (string * string) :=
  match read_digits s with
  | ("", _) => None
  | (String c ds, rest) =>
      if Ascii.eqb c "0" && negb (ds =? "") then None
      else Some (String c ds, rest)
  end.

Definition read_fraction (s : string) : option (string * string) :=
  match s with
  | String "." s' =>
      match read_digits s' with
      | ("", _) => None
      | (ds, rest) => Some ("." ++ ds, rest)
      end
  | _ => Some ("", s)
  end.

Definition read_exponent (s : string) : option (string * string) :=
  match s with
  | String c s' =>
      if Ascii.eqb c "e" || Ascii.eqb c "E" then
        let (sign, s'') :=
          match s' with
          | String "+" t => ("+", t)
          | String "-" t => ("-", t)
          | _ => ("", s')
          end in
        match read_digits s'' with
        | ("", _) => None
        | (ds, rest) => Some (String c (sign ++ ds), rest)
        end
      else Some ("", s)
  | "" => Some ("", "")
  end.

Definition read_number (s : string) : option (pyval * string) :=
  let (neg, s1) :=
    match s with
    | String "-" t => (true, t)
    | _ => (false, s)
    end in
  match read_int s1 with
  | None => None
  | Some (ds, s2) =>
      match read_fraction s2 with
      | None => None
      | Some (fr, s3) =>
          match read_exponent s3 with
          | None => None
          | Some (ex, s4) =>
              if (fr =? "") && (ex =? "") then
                let z := digits_value ds 0 in
                Some (PInt (if neg then (- z)%Z else z), s4)
              else
                Some (PFloat ((if neg then "-" else "") ++ ds ++ fr ++ ex),
                      s4)
          end
      end
  end.

Definition drop (n : nat) (s : string) : string :=
  substring n (String.length s - n) s.

Definition read_constant (s : string) : option (pyval * string) :=
  if prefix "null" s then Some (PNone, drop 4 s)
  else if prefix "true" s then Some (PBool true, drop 4 s)
  else if prefix "false" s then Some (PBool false, drop 5 s)
  else if prefix "NaN" s then Some (PFloat "NaN", drop 3 s)
  else if prefix "Infinity" s then Some (PFloat "Infinity", drop 8 s)
  else if prefix "-Infinity" s then Some (PFloat "-Infinity", drop 9 s)
  else None.

Fixpoint read_value (fuel : nat) (s : string) {struct fuel}
  : option (pyval * string) :=
  match fuel with
  | O => None
  | Datatypes.S fuel' =>
      match s with
      | String "{" s' =>
          match skip_ws s' with
          | String "}" rest => Some (PDict [], rest)
          | body => read_members fuel' body []
          end
      | String "[" s' =>
          match skip_ws s' with
          | String "]" rest => Some (PList [], rest)
          | body => read_elements fuel' body []
          end
      | String c s' =>
          if (nat_of_ascii c =? 34)%nat then
            match read_string s' with
            | Some (body, rest) => Some (PStr body, rest)
            | None => None
            end
          else match read_constant s with
               | Some r => Some r
               | None => read_number s
               end
      | "" => None
      end
  end
with read_elements (fuel : nat) (s : string) (acc : list pyval)
       {struct fuel} : option (pyval * string) :=
  match fuel with
  | O => None
  | Datatypes.S fuel' =>
      match read_value fuel' s with
      | None => None
      | Some (v, rest) =>
          match skip_ws rest with
          | String "," rest' =>
              read_elements fuel' (skip_ws rest') (acc ++ [v])
          | String "]" rest' => Some (PList (acc ++ [v]), rest')
          | _ => None
          end
      end
  end
with read_members (fuel : nat) (s : string) (acc : list (string * pyval))
       {struct fuel} : option (pyval * string) :=
  match fuel with
  | O => None
  | Datatypes.S fuel' =>
      match s with
      | String c s' =>
          if (nat_of_ascii c =? 34)%nat then
            match read_string s' with
            | None => None
            | Some (key, rest) =>
                match skip_ws rest with
                | String ":" rest' =>
                    match read_value fuel' (skip_ws rest') with
                    | None => None
                    | Some (v, rest'') =>
                        match skip_ws rest'' with
                        | String "," t =>
                            read_members fuel' (skip_ws t)
                              (assoc_set key v acc)
                        | String "}" t =>
                            Some (PDict (assoc_set key v acc), t)
                        | _ => None
                        end
                    end
                | _ => None
                end
            end
          else None
      | "" => None
      end
  end.

(** [json.loads(s)] on the texts this reader covers. *)
Definition loads (s : string) : result pyval :=
  match read_value (2 * String.length s + 2) (skip_ws s) with
  | Some (v, rest) =>
      if skip_ws rest =? "" then Ok v
      else Raise (mk_exn JSONDecodeError "Extra data")
  | None => Raise (mk_exn JSONDecodeError "Expecting value")
  end.

End Json.

(** *** A regular-expression engine for the patterns of [red_flags.py]

    Each of those patterns is a choice of literal phrases, inside word
    boundaries or not; the engine knows them by their text and finds no
    match for any other pattern. *)
Module Re.

Definition is_word (c : ascii) : bool :=
  let n := nat_of_ascii c in
  (((48 <=? n) && (n <=? 57)) || ((65 <=? n) && (n <=? 90))
   || ((97 <=? n) && (n <=? 122)) || (n =? 95)
   || (n =? 170) || (n =? 178) || (n =? 179) || (n =? 181)
   || (n =? 185) || (n =? 186) || ((188 <=? n) && (n <=? 190))
   || ((192 <=? n) && negb (n =? 215) && negb (n =? 247)))%nat.

Definition is_word_opt (o : option ascii) : bool :=
  match o with Some c => is_word c | None => false end.

(** The phrases of a pattern, in the order of its alternatives, and
    whether it stands between two [\b]. *)
Definition phrases (pat : string) : bool * list string :=
  if pat =? "\bUAE Federal (Court|Courts|law|laws)\b" then
    (true, [ "UAE Federal Court"; "UAE Federal Courts";
             "UAE Federal law"; "UAE Federal laws" ])
  else if pat =? "\bDIFC\b" then (true, [ "DIFC" ])
  else if pat =? "\bUnited Arab Emirates Federal Courts\b" then
    (true, [ "United Arab Emirates Federal Courts" ])
  else if pat =? "\bmay\b" then (true, [ "may" ])
  else if pat =? "\bmight\b" then (true, [ "might" ])
  else if pat =? "\bendeavour\b" then (true, [ "endeavour" ])
  else if pat =? "\bbest endeavours\b" then (true, [ "best endeavours" ])
  else if pat =? "\bbest efforts\b" then (true, [ "best efforts" ])
  else if pat =? signature_pattern then
    (false, [ "signature"; "signed by"; "for and on behalf";
              "authorised signatory"; "signature:" ])
  else (false, []).

(** Does [phrase] match at the head of [s], [prev] being the
    character before it?  The matched text, in the case of [s]. *)
Definition match_here (bounded : bool) (prev : option ascii)
  (s phrase : string) : option string :=
  let n := String.length phrase in
  let found := substring 0 n s in
  if (lower found =? lower phrase)
     && (negb bounded
         || (xorb (is_word_opt prev) (is_word_opt (get 0 found))
             && xorb (is_word_opt (get (n - 1) found))
                  (is_word_opt (get n s))))
  then Some found else None.

Fixpoint first_match (bounded : bool) (prev : option ascii) (s : string)
  (alts : list string) : option string :=
  match alts with
  | [] => None
  | phrase :: rest =>
      match match_here bounded prev s phrase with
      | Some found => Some found
      | None => first_match bounded prev s rest
      end
  end.

(** Left-to-right scan; [skip] characters still belong to the match
    found last. *)
Fixpoint scan (bounded : bool) (alts : list string) (prev : option ascii)
  (i : Z) (skip : nat) (s : string) : list re_match :=
  match s with
  | "" => []
  | String c s' =>
      match skip with
      | Datatypes.S skip' =>
          scan bounded alts (Some c) (i + 1)%Z skip' s'
      | O =>
          match first_match bounded prev s alts with
          | Some found =>
              mk_match found i (i + len found)%Z
              :: scan bounded alts (Some c) (i + 1)%Z
                   (String.length found - 1) s'
          | None => scan bounded alts (Some c) (i + 1)%Z 0 s'
          end
      end
  end.

Definition finditer (pat text : string) : list re_match :=
  let (bounded, alts) := phrases pat in
  scan bounded alts None 0%Z 0 text.

Definition search (pat text : string) : bool :=
  match finditer pat text with
  | [] => false
  | _ :: _ => true
  end.

End Re.

#[export] Instance mem_regex : Regex :=
  {| re_finditer := Re.finditer; re_search := Re.search |}.

(** *** Vectors, stores and the file system *)

Fixpoint count_char (c : ascii) (s : string) : Z :=
  match s with
  | "" => 0%Z
  | String c' s' =>
      ((if Ascii.eqb (lower_char c') c then 1 else 0) + count_char c s')%Z
  end.

(** The embedding of a text under a model: how often each letter of the
    model name occurs in the text. *)
Definition embed (model text : string) : EmbeddingVector :=
  map (fun c => count_char (lower_char c) text) (list_ascii_of_string model).

Fixpoint sq_distance (u v : EmbeddingVector) : Z :=
  match u, v with
  | x :: u', y :: v' => ((x - y) * (x - y) + sq_distance u' v')%Z
  | _, _ => 0%Z
  end.

(** Similarity: the closer two vectors, the higher. *)
Definition closeness (u v : EmbeddingVector) : Z := (- sq_distance u v)%Z.

Fixpoint fragments_of (i : Z) (chunks : list Document)
  (embeddings : string -> EmbeddingVector)
  : list (ReferenceFragment * EmbeddingVector) :=
  match chunks with
  | [] => []
  | d :: rest =>
      (mk_fragment (page_content d)
         (match metadata_source d with Some src => src | None => "unknown" end)
         i,
       embeddings (page_content d))
      :: fragments_of (i + 1)%Z rest embeddings
  end.

#[export] Instance mem_store : VectorStore :=
  {| FAISS := IndexStore;
     similarity_search := fun vs query k =>
       Ok (map (fun r => hit_of (fst r)) (retrieve vs query k)) |}.

(** Folders with their files (name, text), and the persisted indexes:
    fragments and vectors, as [save_local] writes them. *)
Record disk : Type :=
  mk_disk { folders : list (string * list (string * string));
            indexes : list (string * list (ReferenceFragment * EmbeddingVector)) }.

Definition indexes_at (d : disk) (path : string)
  : list (ReferenceFragment * EmbeddingVector) :=
  match assoc path (indexes d) with
  | Some stored => stored
  | None => []
  end.

Definition exists_ (d : disk) (path : string) : bool :=
  match assoc path (folders d), assoc path (indexes d) with
  | None, None => false
  | _, _ => true
  end.

Definition listdir (d : disk) (path : string) : result (list string) :=
  match assoc path (folders d) with
  | Some files => Ok (map fst files)
  | None => Raise (mk_exn (OtherError "NotADirectoryError") path)
  end.

Definition makedirs (path : string) (d : disk) : result unit * disk :=
  if path =? "" then (Raise (mk_exn FileNotFoundError path), d)
  else if exists_ d path then (Ok tt, d)
  else (Ok tt, mk_disk (assoc_set path [] (folders d)) (indexes d)).

Fixpoint read_in (dirs : list (string * list (string * string)))
  (path : string) : option string :=
  match dirs with
  | [] => None
  | (dir, files) :: rest =>
      match List.find (fun f => path_join dir (fst f) =? path) files with
      | Some f => Some (snd f)
      | None => read_in rest path
      end
  end.

Definition load_text (d : disk) (path : string) : result (list Document) :=
  match read_in (folders d) path with
  | Some content => Ok [ mk_doc content (Some path) ]
  | None => Raise (mk_exn RuntimeError ("Error loading " ++ path))
  end.

Definition init_embeddings (model : string)
  : result (string -> EmbeddingVector) :=
  if model =? "" then Raise (mk_exn (OtherError "OSError") "no such model")
  else Ok (embed model).

Definition from_documents (chunks : list Document)
  (embeddings : string -> EmbeddingVector) : result IndexStore :=
  match chunks with
  | [] => Raise (mk_exn (OtherError "IndexError") "list index out of range")
  | _ =>
      if existsb (fun d => page_content d =? "") chunks
      then Raise (mk_exn ValueError "cannot embed an empty text")
      else Ok (mk_store (fragments_of 0 chunks embeddings) embeddings
                 closeness)
  end.

Definition save_local (vs : IndexStore) (path : string) (d : disk)
  : result unit * disk :=
  (Ok tt, mk_disk (folders d) (assoc_set path (entries vs) (indexes d))).

Definition load_local (d : disk) (path : string)
  (embeddings : string -> EmbeddingVector) : result IndexStore :=
  match assoc path (indexes d) with
  | Some stored => Ok (mk_store stored embeddings closeness)
  | None => Raise (mk_exn RuntimeError ("could not open " ++ path))
  end.

#[export] Instance mem_platform : Platform :=
  {| fs := disk;
     Embeddings := string -> EmbeddingVector;
     os_path_exists := exists_;
     os_listdir := listdir;
     os_makedirs := makedirs;
     HuggingFaceEmbeddings := init_embeddings;
     PyPDFLoader_load := load_text;
     TextLoader_load := load_text;
     split_documents := fun _ _ docs => Ok docs;
     FAISS_from_documents := from_documents;
     FAISS_save_local := save_local;
     FAISS_load_local := load_local |}.

(** *** Language-model handles; the world counts the calls made *)

(** A model that answers the direct call with [reply], in any world. *)
Definition says {W : Type} (reply : string) : Backend W :=
  mk_backend (fun _ w => (Ok (ObjStr reply), w)) None None.

(** A handle on which every calling convention raises. *)
Definition broken : Backend nat :=
  mk_backend
    (fun _ n => (Raise (mk_exn (OtherError "TimeoutError") "direct timed out"),
                 Datatypes.S n))
    (Some (fun _ n =>
             (Raise (mk_exn (OtherError "TimeoutError") "predict timed out"),
              Datatypes.S n)))
    (Some (fun _ n =>
             (Raise (mk_exn (OtherError "TimeoutError") "generate timed out"),
              Datatypes.S n))).

(** A handle whose direct call gives a message object and whose
    [predict] gives the text. *)
Definition predicts (reply : string) : Backend nat :=
  mk_backend
    (fun _ n => (Ok (ObjOther "content='...'"), Datatypes.S n))
    (Some (fun _ n => (Ok (ObjStr reply), Datatypes.S n)))
    None.

(** A handle whose direct call is interrupted from the keyboard and
    whose [predict] would give the text. *)
Definition interrupted (reply : string) : Backend nat :=
  mk_backend
    (fun _ n => (Raise (mk_exn KeyboardInterrupt ""), Datatypes.S n))
    (Some (fun _ n => (Ok (ObjStr reply), Datatypes.S n)))
    None.


(** *** Sample data *)

Definition sample_disk : disk :=
  mk_disk
    [ ("legal_refs",
       [ ("adgm_courts.txt", "ADGM Courts have exclusive jurisdiction.");
         ("notes.md", "not a supported format") ]) ]
    [].



(** [sample_disk] after a build under [HF_EMBEDDING_MODEL]. *)
Definition built_disk : disk :=
  snd (build_vector_store LEGAL_REFS_DIR VECTORSTORE_DIR HF_EMBEDDING_MODEL
         sample_disk).

Definition sample_clause : string := "Governed by DIFC courts.".

Definition sample_store : IndexStore :=
  mk_store
    (fragments_of 0
       [ mk_doc "ADGM Courts have exclusive jurisdiction." (Some "a.txt");
         mk_doc "Companies must keep a register." (Some "b.txt");
         mk_doc "ADGM Courts have exclusive jurisdiction." (Some "c.txt") ]
       (embed HF_EMBEDDING_MODEL))
    (embed HF_EMBEDDING_MODEL) closeness.

(** A document text and a paragraph list that differ in the first
    paragraph, as [run_all_checks] takes the two separately. *)
Definition clause_text : string :=
  "Disputes are settled by the DIFC courts." ++ NL
  ++ "The company may act." ++ NL ++ "Signed by the director.".

Definition clause_paragraphs : list string :=
  [ "Recitals."; "The company may act." ; "Signed by the director." ].

Definition sample_hits : list hit :=
  [ HitDoc (mk_doc "Companies must keep a register." (Some "b.txt")) ].

End MemWorld.

(** ** [utils/doc_checker.py] *)
Module DocChecker.

(** [os.path.basename(p)]: [p[p.rfind('/') + 1:]] *)
Definition basename (p : string) : string :=
  slice p (rfind p "/" + 1)%Z (len p).

(** The characters of [s] up to its first white space. *)
Fixpoint take_word (s : string) : string :=
  match s with
  | "" => ""
  | String c s' => if is_space c then "" else String c (take_word s')
  end.

(** [s.split()[0]]: the first word of [s]; [None] stands for the
    [IndexError] on a string without any word. *)
Definition first_word (s : string) : option string :=
  match lstrip s with
  | "" => None
  | t => Some (take_word t)
  end.

(** A checklist file: the required documents of each process. *)
Definition checklists : Type := list (string * list string).

(** [checklists.get(process, [])] *)
Definition required_for (process : option string) (cl : checklists)
  : list string :=
  match process with
  | Some name => match assoc name cl with Some l => l | None => [] end
  | None => []
  end.

Definition COMPANY_INCORPORATION : string := "Company Incorporation".

(** [[os.path.basename(fn).lower() for fn in filenames]] *)
Definition lower_names_of (filenames : list string) : list string :=
  map (fun fn => lower (basename fn)) filenames.

(** The condition of the [if]: some name mentions the articles or the
    memorandum. *)
Definition mentions_incorporation (lower_names : list string) : bool :=
  existsb (fun n => contains "articles" n || contains "aoa" n) lower_names
  || existsb (fun n => contains "memorandum" n || contains "moa" n)
       lower_names.

(** [any(r_lower.split()[0] in n for n in lower_names)]: the first word is
    taken anew for each name, so that no name means no [IndexError]. *)
Definition first_word_in_names (r : string) (lower_names : list string)
  : result bool :=
  match lower_names with
  | [] => Ok false
  | _ :: _ =>
      match first_word (lower r) with
      | None =>
          Raise (mk_exn (OtherError "IndexError") "list index out of range")
      | Some w => Ok (existsb (fun n => contains w n) lower_names)
      end
  end.

(** The loop [for r in required], appending to [matched]. *)
Fixpoint match_required (required lower_names matched : list string)
  : result (list string) :=
  match required with
  | [] => Ok matched
  | r :: rest =>
      bind (first_word_in_names r lower_names)
           (fun hit =>
              match_required rest lower_names
                (if hit then matched ++ [ r ] else matched)%list)
  end.

Definition identify_process_from_filenames (filenames : list string)
  (cl : checklists) : result (option string * list string) :=
  let lower_names := lower_names_of filenames in
  bind (if mentions_incorporation lower_names
        then bind (match_required
                     (required_for (Some COMPANY_INCORPORATION) cl)
                     lower_names [])
                  (fun matched => Ok (Some COMPANY_INCORPORATION, matched))
        else Ok (None, []))
       (fun pm =>
          match pm with
          | (None, matched) =>
              match filenames with
              | [] => Ok (None, matched)
              | _ :: _ => Ok (Some COMPANY_INCORPORATION, matched)
              end
          | (Some process, matched) => Ok (Some process, matched)
          end).

(** The dict that [checklist_results] returns. *)
Record checklist_report : Type :=
  mk_report { report_process : option string;
              documents_uploaded : nat;
              required_documents : nat;
              missing_documents : list string }.

(** [d in matched_docs] *)
Definition in_list (d : string) (l : list string) : bool :=
  existsb (fun x => x =? d) l.

Definition checklist_results (process_name : option string)
  (matched_docs : list string) (cl : checklists) : checklist_report :=
  let required := required_for process_name cl in
  let missing := filter (fun d => negb (in_list d matched_docs)) required in
  mk_report process_name (List.length matched_docs) (List.length required)
    missing.

End DocChecker.

(** ** [utils/doc_utils.py]

    A document is the list of its paragraphs, a paragraph the list of the
    texts of its runs; fonts and emphasis are left out of the model. *)
Module DocUtils.
Import RedFlags.

Definition docx : Type := list (list string).

(** [p.text]: the texts of the runs, one after the other. *)
Definition paragraph_text (runs : list string) : string :=
  String.concat "" runs.

(** [read_docx_text], on the document that [Document(path)] opened. *)
Definition read_docx_text (doc : docx) : string * list string :=
  let paragraphs := map paragraph_text doc in
  (join NL paragraphs, paragraphs).

(** An annotation dict as [save_reviewed_docx] receives it: the keys of
    [run_all_checks] and the two that the clause check may have added; a
    missing key and [None] are the same to [a.get]. *)
Record review : Type :=
  mk_review { base : annotation; suggestion : pyval; citation : pyval }.

(** The annotation as [run_all_checks] leaves it. *)
Definition plain (a : annotation) : review := mk_review a PNone PNone.

(** A paragraph of the new document: a copy of an original one (its run
    texts), a review note (its text), or the paragraph that shows the
    suggestion [f"Suggestion: {v}"] or the citation
    [f"Citation / Source excerpt:\n{v}"] for the value [v]. *)
Inductive out_paragraph : Type :=
| Copied (runs : list string)
| ReviewNote (note : string)
| SuggestionPar (v : pyval)
| CitationPar (v : pyval).

Section Review.

(** Whether a float, given by its literal, is not zero. *)
Variable float_nonzero : string -> bool.

(** [if v:] *)
Definition truthy_value (v : pyval) : bool :=
  match v with
  | PNone => false
  | PBool b => b
  | PInt z => negb (z =? 0)%Z
  | PFloat literal => float_nonzero literal
  | PStr s => negb (s =? "")
  | PList l => match l with [] => false | _ :: _ => true end
  | PDict d => match d with [] => false | _ :: _ => true end
  end.

(** The body of [for a in matched]: the note, then the suggestion and the
    citation when they are there. *)
Definition notes_for (a : review) : list out_paragraph :=
  (ReviewNote ("[REVIEW NOTE - " ++ severity (base a) ++ "] "
               ++ comment (base a))
   :: (if truthy_value (suggestion a) then [ SuggestionPar (suggestion a) ]
       else [])
   ++ (if truthy_value (citation a) then [ CitationPar (citation a) ]
       else []))%list.

(** [[a for a in annotations if a.get("paragraph_index") == p_index]] *)
Definition matched_at (annotations : list review) (p_index : Z)
  : list review :=
  filter (fun a => (paragraph_index (base a) =? p_index)%Z) annotations.

(** The loop [for p in doc.paragraphs] of [save_reviewed_docx], from the
    paragraph counted [p_index] on: the paragraphs it adds to the new
    document. *)
Fixpoint reviewed_from (paragraphs : docx) (annotations : list review)
  (p_index : Z) : list out_paragraph :=
  match paragraphs with
  | [] => []
  | p :: rest =>
      (Copied p
       :: flat_map notes_for (matched_at annotations p_index)
       ++ reviewed_from rest annotations (p_index + 1)%Z)%list
  end.

(** The new document of [save_reviewed_docx], as it stands when the
    function goes on to save it. *)
Definition reviewed_document (doc : docx) (annotations : list review)
  : list out_paragraph :=
  reviewed_from doc annotations 0%Z.

End Review.

Definition is_copied (p : out_paragraph) : bool :=
  match p with Copied _ => true | _ => false end.

Definition is_note (p : out_paragraph) : bool :=
  match p with ReviewNote _ => true | _ => false end.

Definition is_suggestion (p : out_paragraph) : bool :=
  match p with SuggestionPar _ => true | _ => false end.

Definition is_citation (p : out_paragraph) : bool :=
  match p with CitationPar _ => true | _ => false end.

(** The annotation points at a paragraph of a document of [n]
    paragraphs. *)
Definition in_range (n : nat) (a : review) : bool :=
  ((0 <=? paragraph_index (base a))
   && (paragraph_index (base a) <? Z.of_nat n))%Z.

End DocUtils.

(** ** [app.py]: the review of one uploaded file *)
Module AppFlow.
Import RedFlags RagUtils DocChecker DocUtils.

(** The four keys that the clause check adds to a row of the report. *)
Record rag_fields : Type :=
  mk_rag { rag_compliant : pyval;
           rag_issue : pyval;
           rag_suggestion : pyval;
           rag_citation : pyval }.

(** A row of [all_issues]: a rule-based row has no [rag_fields]. *)
Record issue_row : Type :=
  mk_row { row_document : string;
           row_paragraph_index : Z;
           row_issue : string;
           row_severity : string;
           row_rag : option rag_fields }.

(** The name of the type in the [AttributeError] of a failed [.get]. *)
Definition type_name (v : pyval) : string :=
  match v with
  | PNone => "NoneType"
  | PBool _ => "bool"
  | PInt _ => "int"
  | PFloat _ => "float"
  | PStr _ => "str"
  | PList _ => "list"
  | PDict _ => "dict"
  end.

(** [v.get(k)]: only a dict has the method. *)
Definition py_get (v : pyval) (k : string) : result pyval :=
  match v with
  | PDict d => Ok (match assoc k d with Some x => x | None => PNone end)
  | _ =>
      Raise (mk_exn AttributeError
               ("'" ++ type_name v ++ "' object has no attribute 'get'"))
  end.

(** The row of the first loop, for one mapped annotation. *)
Definition rule_row (path : string) (ann : annotation) : issue_row :=
  mk_row (basename path) (paragraph_index ann) (comment ann) (severity ann)
    None.

Section Review.
Context {RE : Regex} {VS : VectorStore}.
Variable W : Type.
Variable json_loads : string -> result pyval.
Variable float_nonzero : string -> bool.

(** The body of [for ann in anns]: the lookup of the paragraph, before
    the [try]; the clause check on it, inside the [try]; then the [.get]
    calls, after it. *)
Definition rag_step (path : string) (paragraphs : list string) (vs : FAISS)
  (llm : option (Backend W)) (ann : review) (w : W)
  : result (review * issue_row) * W :=
  let p_idx := paragraph_index (base ann) in
  match App.paragraph_at paragraphs p_idx with
  | Raise e => (Raise e, w)
  | Ok para_text =>
      match App.rag_result_for W json_loads para_text (Some vs) llm w with
      | (Raise e, w') => (Raise e, w')
      | (Ok rag_result, w') =>
          (bind (py_get rag_result "suggestion") (fun s =>
           bind (py_get rag_result "citation") (fun c =>
           bind (py_get rag_result "compliant") (fun rc =>
           bind (py_get rag_result "issue") (fun ri =>
           bind (py_get rag_result "suggestion") (fun rs =>
           bind (py_get rag_result "citation") (fun rcit =>
             Ok (mk_review (base ann) s c,
                 mk_row (basename path) p_idx (comment (base ann))
                   (severity (base ann)) (Some (mk_rag rc ri rs rcit))))))))),
           w')
      end
  end.

(** The loop over the annotations of one file; an exception ends it. *)
Fixpoint rag_steps (path : string) (paragraphs : list string) (vs : FAISS)
  (llm : option (Backend W)) (anns : list review) (w : W)
  : result (list review * list issue_row) * W :=
  match anns with
  | [] => (Ok ([], []), w)
  | ann :: rest =>
      match rag_step path paragraphs vs llm ann w with
      | (Raise e, w1) => (Raise e, w1)
      | (Ok (ann', row), w1) =>
          match rag_steps path paragraphs vs llm rest w1 with
          | (Raise e, w2) => (Raise e, w2)
          | (Ok (anns', rows), w2) => (Ok (ann' :: anns', row :: rows), w2)
          end
      end
  end.

(** [if vectorstore is None: st.info(...)  else: <the loop>] *)
Definition rag_stage (path : string) (paragraphs : list string)
  (vectorstore : option FAISS) (llm : option (Backend W))
  (anns : list review) (w : W)
  : result (list review * list issue_row) * W :=
  match vectorstore with
  | None => (Ok (anns, []), w)
  | Some vs => rag_steps path paragraphs vs llm anns w
  end.

(** What the script does with one uploaded file: the rule-based checks,
    the clause checks, and the reviewed document it goes on to save;
    together with the rows the file adds to the report. *)
Definition review_file (path : string) (doc : docx)
  (vectorstore : option FAISS) (llm : option (Backend W)) (w : W)
  : result (list issue_row * list out_paragraph) * W :=
  let (full_text, paragraphs) := read_docx_text doc in
  let mapped_annotations := run_all_checks full_text paragraphs in
  let rule_rows := map (rule_row path) mapped_annotations in
  match rag_stage path paragraphs vectorstore llm
          (map plain mapped_annotations) w with
  | (Raise e, w') => (Raise e, w')
  | (Ok (anns, rag_rows), w') =>
      (Ok ((rule_rows ++ rag_rows)%list,
           reviewed_document float_nonzero doc anns), w')
  end.

End Review.

End AppFlow.

(** ** Notions used to state properties *)
Module Notions.
Import RedFlags RagUtils DocChecker DocUtils.

(** The string of one character. *)
Definition char (c : ascii) : string := String c "".

(** Whether the first word of a required document occurs in a name. *)
Definition names_mention (lower_names : list string) (r : string) : bool :=
  match first_word (lower r) with
  | Some w => existsb (fun n => contains w n) lower_names
  | None => false
  end.

(** The annotation points into the [n] paragraphs counted from [i]. *)
Definition within (i : Z) (n : nat) (a : review) : bool :=
  ((i <=? paragraph_index (base a))
   && (paragraph_index (base a) <? i + Z.of_nat n))%Z.

(** How many paragraphs that satisfy [P] an annotation contributes. *)
Definition weight (float_nonzero : string -> bool)
  (P : out_paragraph -> bool) (a : review) : nat :=
  List.length (filter P (notes_for float_nonzero a)).

(** What [json.loads] does on the three kinds of text that the clause
    check can hand to it: a value it returns for them is a dict. *)
Definition json_object_law (json_loads : string -> result pyval) : Prop :=
  forall t v,
    (t = "" \/ t = "}" \/ exists mid, t = "{" ++ mid ++ "}") ->
    json_loads t = Ok v -> exists d, v = PDict d.

(** The subscript [paragraphs[p_idx]] does not raise for the index of
    the annotation: the index is not below [-len(paragraphs)]. *)
Definition index_readable (paragraphs : list string) (a : review) : Prop :=
  (- Z.of_nat (List.length paragraphs) <= paragraph_index (base a))%Z.

(** The exception [e] came out of a search on the store with [k = 3], or
    out of a call on the handle. *)
Definition raised_by_backends {VS : VectorStore} {W : Type} (vs : FAISS)
  (llm : option (Backend W)) (e : exn) : Prop :=
  (exists query, similarity_search vs query 3 = Raise e)
  \/ (exists h prompt w',
         llm = Some h /\ raised_by_handle h prompt e w').

End Notions.

(** ** More sample data *)
Module Samples.
Import RedFlags RagUtils DocChecker DocUtils AppFlow MemWorld.

Definition sample_checklists : checklists :=
  [ (COMPANY_INCORPORATION,
     [ "Articles of Association"; "Memorandum of Association";
       "Register of Members and Directors" ]) ].

Definition blank_checklists : checklists :=
  [ (COMPANY_INCORPORATION, [ "Articles of Association"; "  " ]) ].

Definition sample_uploads : list string :=
  [ "tmp_uploads/Articles_of_Association.docx"; "tmp_uploads/notes.docx" ].

Definition sample_doc : docx :=
  [ [ "Disputes are settled by the "; "DIFC"; " courts." ];
    [ "The company may act." ] ].

(** Zero test for the float literals of the samples. *)
Definition sample_float_nonzero (literal : string) : bool :=
  negb ((literal =? "0.0") || (literal =? "-0.0")).

(** A store library whose search always fails. *)
Definition failing_store : VectorStore :=
  {| FAISS := unit;
     similarity_search := fun _ _ _ =>
       Raise (mk_exn RuntimeError "index is corrupt") |}.

(** A store library whose search ends the process. *)
Definition exiting_store : VectorStore :=
  {| FAISS := unit;
     similarity_search := fun _ _ _ => Raise (mk_exn SystemExit "1") |}.

(** A reply with prose around the object. *)
Definition verdict_reply : string :=
  "Verdict: " ++ "{" ++ (DQ ++ "compliant" ++ DQ ++ ": false") ++ "}"
  ++ " as requested.".

(** A reference folder with a text file, a file of another type and a
    second text file. *)
Definition two_files : disk :=
  mk_disk
    [ ("legal_refs",
       [ ("a.TXT", "ADGM Courts have exclusive jurisdiction.");
         ("notes.md", "not a supported format");
         ("b.txt", "Companies must keep a register.") ]) ]
    [].

Definition loaded_from_two_files (name : string) : list Document :=
  if name =? "a.TXT"
  then [ mk_doc "ADGM Courts have exclusive jurisdiction."
           (Some "legal_refs/a.TXT") ]
  else if name =? "b.txt"
  then [ mk_doc "Companies must keep a register." (Some "legal_refs/b.txt") ]
  else [].

Definition sample_reviews : list review :=
  [ mk_review (mk_annotation 0 "DIFC" "References DIFC instead of ADGM" "High")
      (PStr "Refer to the ADGM Courts.") (PStr "[SOURCE: a.txt]");
    mk_review (mk_annotation 5 "may" "Ambiguous/non-binding phrase: 'may'"
                 "Medium") PNone (PStr "");
    mk_review (mk_annotation 1 "may" "Ambiguous/non-binding phrase: 'may'"
                 "Medium") PNone PNone ].

End Samples.

(* ===================================================================== *)
(** * Part II: properties                                                 *)
(* ===================================================================== *)

(** ** Strings *)
Module StringFacts.

Lemma prefix_app (sub s : string) :
  prefix sub s = true <-> exists post, s = sub ++ post.
Proof.
  revert s; induction sub as [|c sub IH]; intros s; simpl.
  - destruct s; split; eauto.
  - destruct s as [|c' s]; simpl.
    + split; [discriminate | intros [post H]; discriminate].
    + destruct (ascii_dec c c') as [->|Hne].
      * rewrite IH. split; intros [post H]; exists post; congruence.
      * split; [discriminate | intros [post H]; congruence].
Qed.

Lemma find_from_lower_bound (sub s : string) (i : Z) :
  find_from sub s i = (-1)%Z \/ (i <= find_from sub s i)%Z.
Proof.
  revert i; induction s as [|c s IH]; intros i; cbn [find_from].
  - destruct (prefix sub ""); [right; lia | left; reflexivity].
  - destruct (prefix sub (String c s)); [right; lia|].
    destruct (IH (i + 1)%Z); [left; assumption | right; lia].
Qed.

(** [sub in s] holds exactly when [s] is some text, [sub], some text. *)
Lemma contains_spec (sub s : string) :
  contains sub s = true <-> exists pre post, s = pre ++ sub ++ post.
Proof.
  unfold contains, find.
  assert (G : forall i, (0 <= i)%Z ->
            ((0 <=? find_from sub s i)%Z = true
             <-> exists pre post, s = pre ++ sub ++ post)).
  { induction s as [|c s IH]; intros i Hi; cbn [find_from].
    - destruct (prefix sub "") eqn:E.
      + split; [intros _ | intros _; apply Z.leb_le; lia].
        apply prefix_app in E. destruct E as [post E].
        exists "", post. exact E.
      + split; [discriminate|].
        intros (pre & post & H). exfalso.
        destruct pre; simpl in H; [|discriminate].
        assert (prefix sub "" = true) by (apply prefix_app; eauto).
        congruence.
    - destruct (prefix sub (String c s)) eqn:E.
      + split; [intros _ | intros _; apply Z.leb_le; lia].
        apply prefix_app in E. destruct E as [post E].
        exists "", post. exact E.
      + rewrite (IH (i + 1)%Z) by lia.
        split; intros (pre & post & H).
        * exists (String c pre), post. simpl. congruence.
        * destruct pre as [|c' pre]; simpl in H.
          -- assert (prefix sub (String c s) = true)
               by (apply prefix_app; eauto).
             congruence.
          -- injection H as _ H. eauto. }
  apply G. lia.
Qed.

Example strip_ex :
  strip ("  ok " ++ NL) = "ok" /\ strip "a b" = "a b" /\ strip "   " = "".
Proof. repeat split. Qed.

Example find_ex :
  find "ab{c}d}" "{" = 2%Z /\ rfind "ab{c}d}" "}" = 6%Z
  /\ find "abc" "{" = (-1)%Z /\ rfind "abc" "}" = (-1)%Z.
Proof. repeat split. Qed.

Example slice_ex :
  slice "ab{c}d}" 2 7 = "{c}d}" /\ slice "abc" (-1) 0 = ""
  /\ slice "ab}" (-1) 3 = "}" /\ slice "a}b" (-1) 2 = "".
Proof. repeat split. Qed.

Example lower_ex : lower "DIFC Courts" = "difc courts".
Proof. reflexivity. Qed.

Example endswith_ex :
  endswith (lower "Rules.PDF") ".pdf" = true
  /\ endswith "pdf" ".pdf" = false.
Proof. repeat split. Qed.

Example path_ex :
  RagUtils.dirname RagUtils.VECTORSTORE_DIR = "legal_refs"
  /\ RagUtils.dirname "faiss_store" = ""
  /\ RagUtils.path_join "legal_refs" "a.txt" = "legal_refs/a.txt".
Proof. repeat split. Qed.

End StringFacts.

Import MemWorld RagUtils Retriever RedFlags.

(** ** The red-flag annotator *)
Module RedFlagsFacts.

Lemma first_containing_spec (needle : string) (ps : list string) :
  forall i0,
    (first_containing needle ps i0 = (-1)%Z
     /\ forall p, In p ps -> contains needle (lower p) = false)
    \/ (exists n p,
           first_containing needle ps i0 = (i0 + Z.of_nat n)%Z
           /\ nth_error ps n = Some p
           /\ contains needle (lower p) = true
           /\ forall j q, (j < n)%nat -> nth_error ps j = Some q ->
                          contains needle (lower q) = false).
Proof.
  induction ps as [|p ps IH]; intros i0; cbn [first_containing].
  - left. split; [reflexivity | intros p []].
  - destruct (contains needle (lower p)) eqn:E.
    + right. exists 0%nat, p. repeat split; auto.
      * lia.
      * intros j q Hj. lia.
    + destruct (IH (i0 + 1)%Z) as [[H1 H2] | (n & q & H1 & H2 & H3 & H4)].
      * left. split; [assumption|].
        intros p' [<- | Hin]; auto.
      * right. exists (S n), q. repeat split; auto.
        -- rewrite H1. lia.
        -- intros [|j] q' Hj Hq; simpl in Hq.
           ++ congruence.
           ++ apply (H4 j); [lia | assumption].
Qed.

Lemma locate_cases (iss : issue) (ps : list string) :
  locate iss ps = 0%Z
  \/ exists m, iss_match iss = Some m /\ m <> ""
               /\ first_paragraph_with m ps (locate iss ps).
Proof.
  unfold locate, truthy.
  destruct (iss_match iss) as [m|]; [|left; reflexivity].
  destruct (String.eqb_spec m "") as [->|Hne]; cbn [negb];
    [left; reflexivity|].
  destruct (first_containing_spec (lower m) ps 0)
    as [[H1 _] | (n & p & H1 & H2 & H3 & H4)]; rewrite H1.
  - left. reflexivity.
  - destruct n as [|n].
    + left. reflexivity.
    + right. exists m. repeat split; auto.
      replace ((0 + Z.of_nat (S n) =? -1)%Z) with false
        by (symmetry; apply Z.eqb_neq; lia).
      exists (S n), p. repeat split; auto.
Qed.

Lemma locate_nowhere (iss : issue) (ps : list string) :
  occurs_nowhere iss ps -> locate iss ps = 0%Z.
Proof.
  intros Hno. unfold locate, truthy.
  destruct (iss_match iss) as [m|] eqn:Em; [|reflexivity].
  destruct (negb (m =? "")); [|reflexivity].
  destruct (first_containing_spec (lower m) ps 0)
    as [[H1 _] | (n & p & H1 & H2 & H3 & H4)].
  - rewrite H1. reflexivity.
  - exfalso. apply nth_error_In in H2.
    rewrite (Hno m Em p H2) in H3. discriminate.
Qed.

Section Annotator.
Context {RE : Regex}.

(** C10.  Every annotation of [run_all_checks] carries index 0 or the
    index of the first paragraph that contains its flagged text; an
    issue whose match text occurs in no paragraph gets index 0; and the
    missing-signature issue, which has no match text, is among the
    annotations with index 0 and an empty flagged text. *)
Theorem run_all_checks_paragraph_index (text : string)
  (paragraphs : list string) :
  (forall a, In a (run_all_checks text paragraphs) ->
             paragraph_index a = 0%Z
             \/ first_paragraph_with (flag_text a) paragraphs
                  (paragraph_index a))
  /\ (forall iss, In iss (all_issues text paragraphs) ->
                  occurs_nowhere iss paragraphs ->
                  In (map_issue paragraphs iss)
                     (run_all_checks text paragraphs)
                  /\ paragraph_index (map_issue paragraphs iss) = 0%Z)
  /\ (forall iss, In iss (detect_missing_signature_block paragraphs) ->
                  iss_match iss = None
                  /\ In (map_issue paragraphs iss)
                        (run_all_checks text paragraphs)
                  /\ flag_text (map_issue paragraphs iss) = ""
                  /\ paragraph_index (map_issue paragraphs iss) = 0%Z).
Proof.
  split; [|split].
  - intros a Ha. unfold run_all_checks in Ha.
    apply in_map_iff in Ha. destruct Ha as (iss & <- & _).
    cbn [map_issue paragraph_index flag_text].
    destruct (locate_cases iss paragraphs) as [H | (m & Hm & Hne & H)];
      [left; assumption|].
    right. rewrite Hm. assumption.
  - intros iss Hin Hno. split.
    + unfold run_all_checks. apply in_map. assumption.
    + cbn [map_issue paragraph_index]. apply locate_nowhere. assumption.
  - intros iss Hin. unfold detect_missing_signature_block in Hin.
    destruct (re_search signature_pattern (join NL paragraphs)) eqn:E;
      [destruct Hin|].
    assert (Hiss : In iss (detect_missing_signature_block paragraphs))
      by (unfold detect_missing_signature_block; rewrite E; assumption).
    destruct Hin as [<- | []].
    split; [reflexivity|]. split; [|split; reflexivity].
    unfold run_all_checks, all_issues. apply in_map.
    apply in_or_app. right. apply in_or_app. right. assumption.
Qed.

End Annotator.

Example run_all_checks_ex :
  run_all_checks clause_text clause_paragraphs
  = [ mk_annotation 0 "DIFC" "References DIFC instead of ADGM" "High";
      mk_annotation 1 "may" "Ambiguous/non-binding phrase: 'may'" "Medium" ].
Proof. vm_compute. reflexivity. Qed.

Lemma run_all_checks_paragraph_index_witness :
  (paragraph_index
     (mk_annotation 1 "may" "Ambiguous/non-binding phrase: 'may'" "Medium")
   = 0%Z
   \/ first_paragraph_with "may" clause_paragraphs 1)
  /\ paragraph_index
       (map_issue clause_paragraphs
          (mk_issue (Some "DIFC") "References DIFC instead of ADGM"
             (Some (28, 32)%Z) (Some "High"))) = 0%Z
  /\ paragraph_index
       (map_issue [ "No signatory here." ]
          (mk_issue None "No signature block detected in document."
             None (Some "High"))) = 0%Z.
Proof.
  split; [|split].
  - apply (proj1 (run_all_checks_paragraph_index clause_text
                    clause_paragraphs)).
    vm_compute. right. left. reflexivity.
  - apply (proj1 (proj2 (run_all_checks_paragraph_index clause_text
                           clause_paragraphs))).
    + vm_compute. left. reflexivity.
    + intros m Hm p Hp. injection Hm as <-.
      destruct Hp as [<- | [<- | [<- | []]]]; vm_compute; reflexivity.
  - apply (proj2 (proj2 (run_all_checks_paragraph_index ""
                           [ "No signatory here." ]))).
    vm_compute. left. reflexivity.
Defined.

End RedFlagsFacts.

(** ** Building and loading the index *)
Module IndexFacts.

Section BuildLoad.
Context {VS : VectorStore} {P : Platform}.




(** C8.  Loading from a directory that does not exist raises
    [FileNotFoundError]; no store comes back. *)
Theorem load_missing_directory (save_dir hf_model : string) (disk : fs) :
  os_path_exists disk save_dir = false ->
  load_vector_store save_dir hf_model disk
  = Raise (mk_exn FileNotFoundError
             "FAISS vectorstore not found. Run build_vector_store() first.")
  /\ forall vs, load_vector_store save_dir hf_model disk <> Ok vs.
Proof.
  intros Ex. unfold load_vector_store. rewrite Ex. cbn [negb].
  split; [reflexivity | discriminate].
Qed.

(** C6, as the code has it.  A load succeeds exactly when the directory
    exists, the embedding model named by the identifier supplied to the
    load initialises, and the library reads the index with it; no
    identifier from build time takes part. *)
Theorem load_succeeds_iff (save_dir hf_model : string) (disk : fs)
  (vs : FAISS) :
  load_vector_store save_dir hf_model disk = Ok vs
  <-> os_path_exists disk save_dir = true
      /\ exists embeddings,
           HuggingFaceEmbeddings hf_model = Ok embeddings
           /\ FAISS_load_local disk save_dir embeddings = Ok vs.
Proof.
  unfold load_vector_store.
  destruct (os_path_exists disk save_dir); cbn [negb].
  - destruct (HuggingFaceEmbeddings hf_model) as [emb|e]; cbn [bind].
    + split.
      * intros H. split; [reflexivity|]. exists emb. auto.
      * intros [_ (emb' & Hemb & H)]. congruence.
    + split; [discriminate|].
      intros [_ (emb' & Hemb & _)]. discriminate.
  - split; [discriminate | intros [H _]; discriminate].
Qed.

End BuildLoad.

End IndexFacts.

(** ** The index in the in-memory world *)
Module IndexRuns.

Example build_sample :
  is_ok (fst (build_vector_store LEGAL_REFS_DIR VECTORSTORE_DIR
                HF_EMBEDDING_MODEL sample_disk)) = true
  /\ map (fun e => text (fst e)) (indexes_at built_disk VECTORSTORE_DIR)
     = [ "ADGM Courts have exclusive jurisdiction." ]
  /\ folders built_disk = folders sample_disk.
Proof. vm_compute. repeat split. Qed.


Lemma load_missing_directory_witness :
  load_vector_store VECTORSTORE_DIR HF_EMBEDDING_MODEL sample_disk
  = Raise (mk_exn FileNotFoundError
             "FAISS vectorstore not found. Run build_vector_store() first.")
  /\ forall vs,
       load_vector_store VECTORSTORE_DIR HF_EMBEDDING_MODEL sample_disk
       <> Ok vs.
Proof.
  apply (IndexFacts.load_missing_directory (P := mem_platform)
           VECTORSTORE_DIR HF_EMBEDDING_MODEL sample_disk).
  vm_compute. reflexivity.
Defined.

Lemma built_disk_index :
  assoc VECTORSTORE_DIR (indexes built_disk)
  = Some (indexes_at built_disk VECTORSTORE_DIR).
Proof. vm_compute. reflexivity. Qed.

Lemma load_built (model : string) :
  model <> "" ->
  load_vector_store VECTORSTORE_DIR model built_disk
  = Ok (mk_store (indexes_at built_disk VECTORSTORE_DIR) (embed model)
          closeness).
Proof.
  intros Hm. unfold load_vector_store.
  change (@os_path_exists _ mem_platform) with exists_.
  change (@HuggingFaceEmbeddings _ mem_platform) with init_embeddings.
  change (@FAISS_load_local _ mem_platform) with load_local.
  unfold exists_, init_embeddings, load_local.
  rewrite built_disk_index.
  destruct (String.eqb_spec model ""); [contradiction|].
  destruct (assoc VECTORSTORE_DIR (folders built_disk)); reflexivity.
Qed.

(** C6 fails on the code: the index built under one model identifier
    loads under another, and the store that comes back holds the vectors
    of the build. *)
Lemma load_accepts_other_model :
  is_ok (fst (build_vector_store LEGAL_REFS_DIR VECTORSTORE_DIR
                "all-MiniLM-L6-v2" sample_disk)) = true
  /\ built_disk
     = snd (build_vector_store LEGAL_REFS_DIR VECTORSTORE_DIR
              "all-MiniLM-L6-v2" sample_disk)
  /\ "all-mpnet-base-v2" <> "all-MiniLM-L6-v2"
  /\ load_vector_store VECTORSTORE_DIR "all-mpnet-base-v2" built_disk
     = Ok (mk_store (indexes_at built_disk VECTORSTORE_DIR)
             (embed "all-mpnet-base-v2") closeness)
  /\ map snd (indexes_at built_disk VECTORSTORE_DIR)
     = [ embed "all-MiniLM-L6-v2"
           "ADGM Courts have exclusive jurisdiction." ].
Proof.
  split; [vm_compute; reflexivity|].
  split; [reflexivity|].
  split; [discriminate|].
  split; [apply load_built; discriminate | vm_compute; reflexivity].
Qed.

Lemma load_succeeds_iff_witness :
  load_vector_store VECTORSTORE_DIR "all-mpnet-base-v2" built_disk
  = Ok (mk_store (indexes_at built_disk VECTORSTORE_DIR)
          (embed "all-mpnet-base-v2") closeness).
Proof.
  apply (proj2 (IndexFacts.load_succeeds_iff (P := mem_platform)
                  VECTORSTORE_DIR "all-mpnet-base-v2" built_disk _)).
  split; [vm_compute; reflexivity|].
  exists (embed "all-mpnet-base-v2"). split; [reflexivity|].
  change (@FAISS_load_local _ mem_platform) with load_local.
  unfold load_local. rewrite built_disk_index. reflexivity.
Defined.

End IndexRuns.


(** ** The generation adapter *)
Module AdapterFacts.

Ltac split_call :=
  match goal with
  | |- context [ if isinstance_Exception ?e then _ else _ ] =>
      destruct (isinstance_Exception e) eqn:?
  | |- context [ llm_predict ?h ] =>
      destruct (llm_predict h) as [?predict|] eqn:?
  | |- context [ llm_generate ?h ] =>
      destruct (llm_generate h) as [?generate|] eqn:?
  | |- context [ llm_call ?h ?p ?w ] =>
      destruct (llm_call h p w) as [[[?s|?r]|?e] ?w] eqn:?
  | |- context [ ?f ?p ?w ] =>
      is_var f;
      match type of (f p w) with
      | (result pyobj * _)%type =>
          destruct (f p w) as [[[?s|?r]|?e] ?w] eqn:?
      | (result genresult * _)%type =>
          destruct (f p w) as [[[[?t|] ?g]|?e] ?w] eqn:?
      end
  end.

Ltac split_calls := repeat (split_call; cbn -[String.append strip]).


Section Adapter.
Variable W : Type.

(** Where an exception of the adapter comes from, for a handle that is
    there: it is either the [RuntimeError] that wraps an exception of the
    class [Exception] raised by a direct call, or an exception outside of
    that class, which some call on the handle raised and which comes out
    as it is. *)
Lemma adapter_raise_origin (h : Backend W) (prompt : string) (w : W)
  (e : exn) (w' : W) :
  _call_llm_tolerant W (Some h) prompt w = (Raise e, w') ->
  (isinstance_Exception e = true
   /\ exists e0 w0,
        llm_call h prompt w0 = (Raise e0, w')
        /\ isinstance_Exception e0 = true
        /\ e = mk_exn RuntimeError ("LLM call failed: " ++ exc_msg e0))
  \/ (isinstance_Exception e = false /\ raised_by_handle h prompt e w').
Proof.
  unfold _call_llm_tolerant, try_direct, try_predict, try_generate,
    last_call.
  split_calls.
  all: intros Hcall; try discriminate Hcall.
  all: injection Hcall as <- <-.
  all: unfold raised_by_handle.
  all: first
         [ left; split; [reflexivity|]; eexists; eexists;
           split; [eassumption | split; [assumption | reflexivity]]
         | right; split; [assumption|];
           first
             [ left; eexists; eassumption
             | right; left; eexists; eexists; split; eassumption
             | right; right; eexists; eexists; split; eassumption ] ].
Qed.

End Adapter.


Example adapter_falls_back_to_predict :
  _call_llm_tolerant nat (Some (predicts "fine")) "prompt" 0 = (Ok "fine", 2).
Proof. reflexivity. Qed.


End AdapterFacts.

(** ** The retriever of the specification *)
Module RetrieverFacts.

Lemma insert_desc_Forall (P : ranked -> Prop) (x : ranked) (l : list ranked) :
  P x -> Forall P l -> Forall P (insert_desc x l).
Proof.
  intros Hx Hl. induction Hl as [|y l Hy Hl IH]; cbn [insert_desc].
  - constructor; [assumption | constructor].
  - destruct (score y <=? score x)%Z; repeat constructor; assumption.
Qed.

Lemma sort_desc_Forall (P : ranked -> Prop) (l : list ranked) :
  Forall P l -> Forall P (sort_desc l).
Proof.
  induction 1 as [|x l Hx Hl IH]; cbn [sort_desc].
  - constructor.
  - apply insert_desc_Forall; assumption.
Qed.

Lemma insert_desc_length (x : ranked) (l : list ranked) :
  List.length (insert_desc x l) = S (List.length l).
Proof.
  induction l as [|y l IH]; cbn [insert_desc]; [reflexivity|].
  destruct (score y <=? score x)%Z; cbn [List.length]; congruence.
Qed.

Lemma sort_desc_length (l : list ranked) :
  List.length (sort_desc l) = List.length l.
Proof.
  induction l as [|x l IH]; cbn [sort_desc]; [reflexivity|].
  rewrite insert_desc_length. cbn [List.length]. congruence.
Qed.

Lemma score_entries_length (S : IndexStore) (q : EmbeddingVector) (i : nat)
  (l : list (ReferenceFragment * EmbeddingVector)) :
  List.length (score_entries S q i l) = List.length l.
Proof.
  revert i; induction l as [|[f v] l IH]; intros i; cbn [score_entries];
    [reflexivity|].
  cbn [List.length]. rewrite IH. reflexivity.
Qed.

(** A candidate inserted among candidates of later rank, themselves in
    order, lands in order. *)
Lemma insert_desc_sorted (x : ranked) (l : list ranked) :
  StronglySorted precedes l ->
  Forall (fun y => rank x < rank y) l ->
  StronglySorted precedes (insert_desc x l).
Proof.
  intros Hs. induction Hs as [|y l Hs IH Hy]; intros Hr; cbn [insert_desc].
  - repeat constructor.
  - inversion Hr as [|? ? Hxy Hxl]; subst.
    destruct (Z.leb_spec (score y) (score x)) as [Hle|Hgt].
    + constructor; [constructor; assumption|].
      assert (Hfirst : precedes x y).
      { unfold precedes.
        destruct (Z.eq_dec (score x) (score y)); [right | left]; lia. }
      constructor; [assumption|].
      rewrite Forall_forall in Hy, Hxl |- *.
      intros z Hz. specialize (Hy z Hz). specialize (Hxl z Hz).
      unfold precedes in *. lia.
    + constructor; [apply IH; assumption|].
      apply insert_desc_Forall; [left; lia | assumption].
Qed.

Lemma score_entries_ranks (S : IndexStore) (q : EmbeddingVector)
  (l : list (ReferenceFragment * EmbeddingVector)) :
  forall i, Forall (fun y => i <= rank y) (score_entries S q i l).
Proof.
  induction l as [|[f v] l IH]; intros i; cbn [score_entries];
    constructor.
  - cbn. lia.
  - eapply Forall_impl; [|apply (IH (Datatypes.S i))].
    cbn. intros; lia.
Qed.

Lemma sort_scored_sorted (S : IndexStore) (q : EmbeddingVector)
  (l : list (ReferenceFragment * EmbeddingVector)) :
  forall i, StronglySorted precedes (sort_desc (score_entries S q i l)).
Proof.
  induction l as [|[f v] l IH]; intros i;
    cbn [score_entries sort_desc]; [constructor|].
  apply insert_desc_sorted; [apply IH|].
  apply sort_desc_Forall.
  eapply Forall_impl; [|apply (score_entries_ranks S q l (Datatypes.S i))].
  cbn. intros; lia.
Qed.

Lemma firstn_In {A} (x : A) (n : nat) (l : list A) :
  In x (firstn n l) -> In x l.
Proof.
  revert n; induction l as [|y l IH]; intros [|n]; cbn [firstn In];
    try tauto.
  intros [H | H]; [left; assumption | right; eapply IH; eassumption].
Qed.

Lemma firstn_sorted {A} (R : A -> A -> Prop) (n : nat) (l : list A) :
  StronglySorted R l -> StronglySorted R (firstn n l).
Proof.
  intros Hs. revert n.
  induction Hs as [|x l Hs IH Hx]; intros [|n]; cbn [firstn];
    try constructor.
  - apply IH.
  - rewrite Forall_forall in Hx |- *.
    intros y Hy. apply Hx. eapply firstn_In. eassumption.
Qed.

(** Every candidate is an entry of the store, at its rank, scored
    against the query. *)
Lemma score_entries_origin (S : IndexStore) (q : EmbeddingVector)
  (l : list (ReferenceFragment * EmbeddingVector)) :
  forall i,
    Forall (fun r => exists v,
                nth_error l (rank r - i) = Some (fragment r, v)
                /\ i <= rank r
                /\ score r = similarity S q v)
           (score_entries S q i l).
Proof.
  induction l as [|[f v] l IH]; intros i; cbn [score_entries];
    constructor.
  - exists v. cbn. rewrite Nat.sub_diag. auto.
  - eapply Forall_impl; [|apply (IH (Datatypes.S i))].
    cbn. intros r (v' & Hn & Hi & Hs). exists v'.
    replace (rank r - i) with (Datatypes.S (rank r - Datatypes.S i)) by lia.
    cbn. repeat split; auto. lia.
Qed.

Lemma Forall_firstn {A} (P : A -> Prop) (n : nat) (l : list A) :
  Forall P l -> Forall P (firstn n l).
Proof.
  rewrite !Forall_forall. intros H x Hx. apply H.
  eapply firstn_In. eassumption.
Qed.

Lemma retrieve_length (S : IndexStore) (query : string) (k : Z) :
  List.length (retrieve S query k)
  = Nat.min (Z.to_nat k) (List.length (entries S)).
Proof.
  unfold retrieve, retrieve_ranked.
  rewrite length_map, length_firstn, sort_desc_length, score_entries_length.
  reflexivity.
Qed.

(** C7.  For [k >= 1] the retrieval returns at most [k] results; of any
    two of them the earlier one has the strictly higher score or, at
    equal scores, was inserted earlier; and each is a fragment of the
    store with its similarity to the query. *)
Theorem retrieve_top_k (S : IndexStore) (query : string) (k : Z) :
  (1 <= k)%Z ->
  (Z.of_nat (List.length (retrieve S query k)) <= k)%Z
  /\ retrieve S query k
     = map (fun r => (fragment r, score r)) (retrieve_ranked S query k)
  /\ StronglySorted precedes (retrieve_ranked S query k)
  /\ Forall (fun r => exists v,
                 nth_error (entries S) (rank r) = Some (fragment r, v)
                 /\ score r = similarity S (embed_query S query) v)
            (retrieve_ranked S query k).
Proof.
  intros Hk. split; [|split; [reflexivity | split]].
  - rewrite retrieve_length. lia.
  - unfold retrieve_ranked. apply firstn_sorted. apply sort_scored_sorted.
  - unfold retrieve_ranked. apply Forall_firstn. apply sort_desc_Forall.
    eapply Forall_impl;
      [|apply (score_entries_origin S (embed_query S query) (entries S) 0)].
    cbn. intros r (v & Hn & _ & Hs). exists v.
    rewrite Nat.sub_0_r in Hn. auto.
Qed.

Example retrieve_ties_in_insertion_order :
  map (fun r => (rank r, source_locator (fragment r), score r))
      (retrieve_ranked sample_store "ADGM Courts" 3)
  = [ (1, "b.txt", (-12)%Z); (0, "a.txt", (-42)%Z); (2, "c.txt", (-42)%Z) ].
Proof. vm_compute. reflexivity. Qed.

Lemma retrieve_top_k_witness :
  (Z.of_nat (List.length (retrieve sample_store "ADGM Courts" 2)) <= 2)%Z
  /\ retrieve sample_store "ADGM Courts" 2
     = map (fun r => (fragment r, score r))
           (retrieve_ranked sample_store "ADGM Courts" 2)
  /\ StronglySorted precedes (retrieve_ranked sample_store "ADGM Courts" 2)
  /\ Forall (fun r => exists v,
                 nth_error (entries sample_store) (rank r)
                 = Some (fragment r, v)
                 /\ score r
                    = similarity sample_store
                        (embed_query sample_store "ADGM Courts") v)
            (retrieve_ranked sample_store "ADGM Courts" 2).
Proof. apply (retrieve_top_k sample_store "ADGM Courts" 2). lia. Defined.

End RetrieverFacts.

(** ** The clause check *)
Module JudgeFacts.

Lemma rendered_document_nonempty (d : Document) :
  render_hit (HitDoc d) <> "".
Proof.
  unfold render_hit. destruct (page_content d); discriminate.
Qed.

Lemma join_nonempty (sep first : string) (rest : list string) :
  first <> "" -> join sep (first :: rest) <> "".
Proof.
  intros Hne. unfold join. cbn [concat].
  destruct rest; [assumption|].
  destruct first; [contradiction | discriminate].
Qed.

Section Judge.
Context {VS : VectorStore}.
Variable W : Type.
Variable json_loads : string -> result pyval.

(** C1, as the code has it.  With a store whose search answers and a
    handle present: when the adapter raises an exception of the class
    [Exception], the clause check returns the judgment with [compliant]
    and [suggestion] [None], the issue "LLM error: " and the message of
    the error, and the retrieved context as citation; when the text cut
    from the reply does not parse, it returns the judgment with the reply
    as issue.  An exception outside of the class [Exception] is not
    absorbed: it is one that a call on the handle raised, and the clause
    check passes it on as it is.  Nothing else comes out of the clause
    check as an exception, so that no error of the class [Exception]
    reaches the caller from the generation or the parsing. *)
Theorem judge_absorbs_failures (clause_text : string) (vs : FAISS)
  (h : Backend W) (k : Z) (w : W) (docs : list hit) :
  similarity_search vs clause_text k = Ok docs ->
  let context := context_of docs in
  let prompt := PROMPT_TEMPLATE clause_text context in
  let out :=
    check_clause_with_rag W json_loads clause_text (Some vs) (Some h) k w in
  (forall e w',
      _call_llm_tolerant W (Some h) prompt w = (Raise e, w') ->
      isinstance_Exception e = true ->
      out = (Ok (PDict [ ("compliant", PNone);
                         ("issue", PStr ("LLM error: " ++ exc_msg e));
                         ("suggestion", PNone);
                         ("citation", PStr context) ]), w'))
  /\ (forall raw w' e,
         _call_llm_tolerant W (Some h) prompt w = (Ok raw, w') ->
         json_loads (slice raw (find raw "{") (rfind raw "}" + 1))
         = Raise e ->
         out = (Ok (PDict [ ("compliant", PNone);
                            ("issue", PStr raw);
                            ("suggestion", PNone);
                            ("citation", PStr context) ]), w'))
  /\ (forall e w',
         _call_llm_tolerant W (Some h) prompt w = (Raise e, w') ->
         isinstance_Exception e = false ->
         out = (Raise e, w') /\ raised_by_handle h prompt e w')
  /\ (forall e,
         fst out = Raise e ->
         isinstance_Exception e = false
         /\ fst (_call_llm_tolerant W (Some h) prompt w) = Raise e).
Proof.
  intros Hdocs context prompt out. subst out.
  unfold check_clause_with_rag. rewrite Hdocs. fold context. fold prompt.
  split; [|split; [|split]].
  - intros e w' Hcall Hclass. rewrite Hcall, Hclass. reflexivity.
  - intros raw w' e Hcall Hparse. rewrite Hcall.
    unfold extract_json. rewrite Hparse. reflexivity.
  - intros e w' Hcall Hclass. rewrite Hcall, Hclass.
    split; [reflexivity|].
    destruct (AdapterFacts.adapter_raise_origin W h prompt w e w' Hcall)
      as [[Hyes _] | [_ Hfrom]]; [congruence | exact Hfrom].
  - intros e.
    destruct (_call_llm_tolerant W (Some h) prompt w) as [[raw|e'] w'];
      [discriminate|].
    destruct (isinstance_Exception e') eqn:Hclass; [discriminate|].
    cbn [fst]. intros Hout. injection Hout as <-. split; [exact Hclass|].
    reflexivity.
Qed.

(** C3, as the code has it.  With [None] for the store the clause check
    raises [AttributeError] at the search, whatever the clause and the
    handle, and leaves the world as it was; the caller makes no clause
    check at all when it has no store: its loop over the annotations is
    skipped, so that it adds no row, changes no annotation and leaves
    the world as it was. *)
Theorem judge_needs_store (clause_text : string)
  (llm : option (Backend W)) (k : Z) (w : W) :
  check_clause_with_rag W json_loads clause_text None llm k w
  = (Raise (mk_exn AttributeError
              "'NoneType' object has no attribute 'similarity_search'"),
     w)
  /\ forall path paragraphs anns,
       AppFlow.rag_stage W json_loads path paragraphs None llm anns w
       = (Ok (anns, []), w).
Proof. split; reflexivity. Qed.

(** The judgment of the evidence-only mode, for any store. *)
Lemma judge_evidence_only (clause_text : string) (vs : FAISS) (k : Z)
  (w : W) (docs : list hit) :
  similarity_search vs clause_text k = Ok docs ->
  check_clause_with_rag W json_loads clause_text (Some vs) None k w
  = (Ok (judgment None (Some (context_of docs))), w).
Proof.
  intros Hdocs. unfold check_clause_with_rag. rewrite Hdocs. reflexivity.
Qed.

(** C4.  Without a handle the clause check returns the judgment with
    [compliant], [issue] and [suggestion] [None] and, as citation, the
    retrieved texts, each followed by its source tag, joined by the
    separator; the citation is not empty as soon as the search returns a
    document.  For a store that holds at least one fragment and [k >= 1]
    the search returns between one and [k] fragments, so that the citation
    is the non-empty concatenation of their tagged texts. *)
Theorem judge_without_backend (clause_text : string) (vs : FAISS) (k : Z)
  (w : W) :
  (forall docs,
      similarity_search vs clause_text k = Ok docs ->
      check_clause_with_rag W json_loads clause_text (Some vs) None k w
      = (Ok (PDict [ ("compliant", PNone); ("issue", PNone);
                     ("suggestion", PNone);
                     ("citation", PStr (context_of docs)) ]), w)
      /\ forall d rest, docs = HitDoc d :: rest -> context_of docs <> "")
  /\ (forall S,
         realises vs S ->
         entries S <> [] ->
         (1 <= k)%Z ->
         let citation :=
           join (NL ++ NL ++ "---" ++ NL ++ NL)
             (map (fun r =>
                     text (fst r) ++ NL ++ NL ++ "[SOURCE: "
                     ++ source_locator (fst r) ++ "]")
                  (retrieve S clause_text k)) in
         check_clause_with_rag W json_loads clause_text (Some vs) None k w
         = (Ok (PDict [ ("compliant", PNone); ("issue", PNone);
                        ("suggestion", PNone); ("citation", PStr citation) ]),
            w)
         /\ citation <> ""
         /\ (1 <= List.length (retrieve S clause_text k) <= Z.to_nat k)%nat).
Proof.
  assert (Hany : forall docs,
             similarity_search vs clause_text k = Ok docs ->
             check_clause_with_rag W json_loads clause_text (Some vs) None k w
             = (Ok (PDict [ ("compliant", PNone); ("issue", PNone);
                            ("suggestion", PNone);
                            ("citation", PStr (context_of docs)) ]), w)
             /\ forall d rest, docs = HitDoc d :: rest ->
                               context_of docs <> "").
  { intros docs Hdocs. split.
    - rewrite (judge_evidence_only _ _ _ _ _ Hdocs). reflexivity.
    - intros d rest ->. unfold context_of. cbn [map].
      apply join_nonempty. apply rendered_document_nonempty. }
  split; [exact Hany|].
  intros S Hreal Hne Hk citation.
  assert (Hcit : citation
                 = context_of (map (fun r => hit_of (fst r))
                                   (retrieve S clause_text k))).
  { unfold citation, context_of. rewrite map_map. reflexivity. }
  pose proof (RetrieverFacts.retrieve_length S clause_text k) as Hlen.
  assert (Hsome : (1 <= List.length (retrieve S clause_text k))%nat).
  { rewrite Hlen. destruct (entries S); [contradiction|].
    cbn [List.length]. lia. }
  destruct (Hany _ (Hreal clause_text k)) as [Hrun Hfull].
  split; [|split].
  - rewrite Hcit. exact Hrun.
  - rewrite Hcit.
    destruct (retrieve S clause_text k) as [|r rest];
      [cbn [List.length] in Hsome; lia|].
    eapply Hfull. cbn [map]. unfold hit_of. reflexivity.
  - split; [exact Hsome | rewrite Hlen; lia].
Qed.

(** C9.  When the text between the first opening and the last closing
    brace of the reply parses, the clause check returns the parsed value
    as it is: whatever keys it has, and without the retrieved context.
    So a handle that replies with the empty object makes it return a
    dict with none of the four keys. *)
Theorem judge_returns_parsed_value (clause_text : string) (vs : FAISS)
  (k : Z) (w : W) (docs : list hit) :
  similarity_search vs clause_text k = Ok docs ->
  (forall h raw w' data,
      _call_llm_tolerant W (Some h)
        (PROMPT_TEMPLATE clause_text (context_of docs)) w = (Ok raw, w') ->
      json_loads (slice raw (find raw "{") (rfind raw "}" + 1)) = Ok data ->
      check_clause_with_rag W json_loads clause_text (Some vs) (Some h) k w
      = (Ok data, w'))
  /\ (json_loads "{}" = Ok (PDict []) ->
      exists (h : Backend W) (data : pyval),
        fst (check_clause_with_rag W json_loads clause_text (Some vs)
               (Some h) k w) = Ok data
        /\ has_key data "compliant" = false
        /\ has_key data "issue" = false
        /\ has_key data "suggestion" = false
        /\ has_key data "citation" = false).
Proof.
  intros Hdocs.
  assert (Hparsed : forall h raw w' data,
             _call_llm_tolerant W (Some h)
               (PROMPT_TEMPLATE clause_text (context_of docs)) w
             = (Ok raw, w') ->
             json_loads (slice raw (find raw "{") (rfind raw "}" + 1))
             = Ok data ->
             check_clause_with_rag W json_loads clause_text (Some vs)
               (Some h) k w = (Ok data, w')).
  { intros h raw w' data Hcall Hparse.
    unfold check_clause_with_rag. rewrite Hdocs, Hcall.
    unfold extract_json. rewrite Hparse. reflexivity. }
  split; [exact Hparsed|].
  intros Hempty. exists (says "{}"), (PDict []).
  split; [|repeat split].
  erewrite Hparsed; [reflexivity | reflexivity | exact Hempty].
Qed.

End Judge.

End JudgeFacts.

(** ** The clause check in the in-memory world *)
Module JudgeRuns.

Lemma sample_search :
  similarity_search (VectorStore := mem_store) sample_store sample_clause 1
  = Ok sample_hits.
Proof. vm_compute. reflexivity. Qed.

Lemma sample_realised : realises (VS := mem_store) sample_store sample_store.
Proof. intros query k. reflexivity. Qed.

Example judge_unparsable_reply :
  check_clause_with_rag nat Json.loads sample_clause (Some sample_store)
    (Some (says "I cannot assess this.")) 1 0
  = (Ok (PDict [ ("compliant", PNone);
                 ("issue", PStr "I cannot assess this.");
                 ("suggestion", PNone);
                 ("citation", PStr (context_of sample_hits)) ]), 0).
Proof. vm_compute. reflexivity. Qed.

Example judge_embedded_object :
  fst (check_clause_with_rag nat Json.loads sample_clause (Some sample_store)
         (Some (says ("Verdict: {" ++ DQ ++ "compliant" ++ DQ
                      ++ ": false} as requested."))) 1 0)
  = Ok (PDict [ ("compliant", PBool false) ]).
Proof. vm_compute. reflexivity. Qed.

Lemma judge_absorbs_failures_witness :
  check_clause_with_rag nat Json.loads sample_clause (Some sample_store)
    (Some broken) 1 0
  = (Ok (PDict [ ("compliant", PNone);
                 ("issue",
                  PStr ("LLM error: "
                        ++ exc_msg (mk_exn RuntimeError
                                      "LLM call failed: direct timed out")));
                 ("suggestion", PNone);
                 ("citation", PStr (context_of sample_hits)) ]), 4)
  /\ check_clause_with_rag nat Json.loads sample_clause (Some sample_store)
       (Some (says "I cannot assess this.")) 1 0
     = (Ok (PDict [ ("compliant", PNone);
                    ("issue", PStr "I cannot assess this.");
                    ("suggestion", PNone);
                    ("citation", PStr (context_of sample_hits)) ]), 0).
Proof.
  split.
  - apply (proj1 (JudgeFacts.judge_absorbs_failures (VS := mem_store) nat Json.loads
                    sample_clause sample_store broken 1 0 sample_hits
                    sample_search)).
    + vm_compute. reflexivity.
    + reflexivity.
  - apply (proj1 (proj2 (JudgeFacts.judge_absorbs_failures (VS := mem_store) nat Json.loads
                           sample_clause sample_store
                           (says "I cannot assess this.") 1 0 sample_hits
                           sample_search))
             "I cannot assess this." 0
             (mk_exn JSONDecodeError "Expecting value")).
    + vm_compute. reflexivity.
    + vm_compute. reflexivity.
Defined.

(** C1 fails on the code as stated: the direct call on the handle is
    interrupted from the keyboard, the adapter raises, and the clause
    check returns no judgment; the interrupt reaches the caller. *)
Lemma judge_raises_on_interrupt :
  fst (_call_llm_tolerant nat (Some (interrupted "{}"))
         (PROMPT_TEMPLATE sample_clause (context_of sample_hits)) 0)
  = Raise (mk_exn KeyboardInterrupt "")
  /\ check_clause_with_rag nat Json.loads sample_clause (Some sample_store)
       (Some (interrupted "{}")) 1 0
     = (Raise (mk_exn KeyboardInterrupt ""), 1).
Proof. split; vm_compute; reflexivity. Qed.

(** C3 fails on the code: with no store the clause check raises, it does
    not return the judgment of four absent fields. *)
Lemma judge_raises_without_store :
  fst (check_clause_with_rag nat Json.loads sample_clause None None 3 0)
  = Raise (mk_exn AttributeError
             "'NoneType' object has no attribute 'similarity_search'")
  /\ fst (check_clause_with_rag nat Json.loads sample_clause None
            (Some (says "{}")) 3 0)
     <> Ok (PDict [ ("compliant", PNone); ("issue", PNone);
                    ("suggestion", PNone); ("citation", PNone) ]).
Proof. split; [reflexivity | discriminate]. Qed.

Lemma judge_without_backend_witness :
  (check_clause_with_rag nat Json.loads sample_clause (Some sample_store)
     None 1 0
   = (Ok (PDict [ ("compliant", PNone); ("issue", PNone);
                  ("suggestion", PNone);
                  ("citation", PStr (context_of sample_hits)) ]), 0)
   /\ context_of sample_hits <> "")
  /\ let citation :=
       join (NL ++ NL ++ "---" ++ NL ++ NL)
         (map (fun r =>
                 text (fst r) ++ NL ++ NL ++ "[SOURCE: "
                 ++ source_locator (fst r) ++ "]")
              (retrieve sample_store sample_clause 1)) in
     check_clause_with_rag nat Json.loads sample_clause (Some sample_store)
       None 1 0
     = (Ok (PDict [ ("compliant", PNone); ("issue", PNone);
                    ("suggestion", PNone); ("citation", PStr citation) ]), 0)
     /\ citation <> ""
     /\ (1 <= List.length (retrieve sample_store sample_clause 1)
         <= Z.to_nat 1)%nat.
Proof.
  destruct (JudgeFacts.judge_without_backend (VS := mem_store) nat Json.loads
              sample_clause sample_store 1 0) as [Hany Hstore].
  split.
  - destruct (Hany sample_hits sample_search) as [Hrun Hfull].
    split; [exact Hrun|].
    eapply Hfull. reflexivity.
  - apply (Hstore sample_store sample_realised).
    + vm_compute. discriminate.
    + lia.
Defined.

Example judge_evidence_citation :
  fst (check_clause_with_rag nat Json.loads sample_clause (Some sample_store)
         None 1 0)
  = Ok (PDict [ ("compliant", PNone); ("issue", PNone);
                ("suggestion", PNone);
                ("citation",
                 PStr ("Companies must keep a register." ++ NL ++ NL
                       ++ "[SOURCE: b.txt]")) ]).
Proof. vm_compute. reflexivity. Qed.

Lemma judge_returns_parsed_value_witness :
  check_clause_with_rag nat Json.loads sample_clause (Some sample_store)
    (Some (says "Here you are: {} .")) 1 0
  = (Ok (PDict []), 0)
  /\ exists (h : Backend nat) (data : pyval),
       fst (check_clause_with_rag nat Json.loads sample_clause
              (Some sample_store) (Some h) 1 0) = Ok data
       /\ has_key data "compliant" = false
       /\ has_key data "issue" = false
       /\ has_key data "suggestion" = false
       /\ has_key data "citation" = false.
Proof.
  split.
  - apply (proj1 (JudgeFacts.judge_returns_parsed_value (VS := mem_store) nat Json.loads
                    sample_clause sample_store 1 0 sample_hits
                    sample_search)
             (says "Here you are: {} .") "Here you are: {} .").
    + vm_compute. reflexivity.
    + vm_compute. reflexivity.
  - apply (proj2 (JudgeFacts.judge_returns_parsed_value (VS := mem_store) nat Json.loads
                    sample_clause sample_store 1 0 sample_hits
                    sample_search)).
    vm_compute. reflexivity.
Defined.

End JudgeRuns.

(** ** Searching and cutting strings *)
Module SliceFacts.
Import Notions.

Lemma prefix_char (c a : ascii) (s : string) :
  prefix (char c) (String a s) = if ascii_dec c a then true else false.
Proof.
  unfold char. cbn [prefix]. destruct (ascii_dec c a); [|reflexivity].
  destruct s; reflexivity.
Qed.

Lemma contains_cons_false (c a : ascii) (s : string) :
  contains (char c) (String a s) = false ->
  a <> c /\ contains (char c) s = false.
Proof.
  intros H. split.
  - intros ->.
    assert (contains (char c) (String c s) = true)
      by (apply StringFacts.contains_spec; exists "", s; reflexivity).
    congruence.
  - destruct (contains (char c) s) eqn:E; [|reflexivity].
    apply StringFacts.contains_spec in E. destruct E as (x & y & ->).
    assert (contains (char c) (String a (x ++ char c ++ y)) = true)
      by (apply StringFacts.contains_spec; exists (String a x), y;
          reflexivity).
    congruence.
Qed.

Lemma find_char_none (c : ascii) (s : string) :
  contains (char c) s = false -> forall i, find_from (char c) s i = (-1)%Z.
Proof.
  induction s as [|a s IH]; intros H i; cbn [find_from].
  - reflexivity.
  - apply contains_cons_false in H. destruct H as [Hne H].
    rewrite prefix_char. destruct (ascii_dec c a); [congruence|].
    apply IH. assumption.
Qed.

Lemma find_char_append (c : ascii) (pre rest : string) :
  contains (char c) pre = false ->
  forall i, find_from (char c) (pre ++ String c rest) i = (i + len pre)%Z.
Proof.
  induction pre as [|a pre IH]; intros H i.
  - cbn [append find_from]. rewrite prefix_char.
    destruct (ascii_dec c c); [|congruence]. unfold len. cbn. lia.
  - apply contains_cons_false in H. destruct H as [Hne H].
    cbn [append find_from]. rewrite prefix_char.
    destruct (ascii_dec c a); [congruence|].
    rewrite (IH H). unfold len. cbn [String.length]. lia.
Qed.

Lemma rfind_char_none (c : ascii) (s : string) :
  contains (char c) s = false -> forall i, rfind_from (char c) s i = (-1)%Z.
Proof.
  induction s as [|a s IH]; intros H i; cbn [rfind_from].
  - reflexivity.
  - apply contains_cons_false in H. destruct H as [Hne H].
    rewrite (IH H). change (0 <=? -1)%Z with false. cbv iota.
    rewrite prefix_char.
    destruct (ascii_dec c a); [congruence | reflexivity].
Qed.

Lemma rfind_char_append (c : ascii) (pre post : string) :
  contains (char c) post = false ->
  forall i, (0 <= i)%Z ->
            rfind_from (char c) (pre ++ String c post) i = (i + len pre)%Z.
Proof.
  intros H. induction pre as [|a pre IH]; intros i Hi.
  - cbn [append rfind_from]. rewrite (rfind_char_none c post H).
    change (0 <=? -1)%Z with false. cbv iota.
    rewrite prefix_char. destruct (ascii_dec c c); [|congruence].
    unfold len. cbn. lia.
  - cbn [append rfind_from]. rewrite IH by lia.
    replace (0 <=? i + 1 + len pre)%Z with true
      by (symmetry; apply Z.leb_le; unfold len; lia).
    unfold len. cbn [String.length]. lia.
Qed.

Lemma length_append (s t : string) :
  String.length (s ++ t) = String.length s + String.length t.
Proof. induction s as [|a s IH]; cbn; [reflexivity | rewrite IH; reflexivity]. Qed.

Lemma substring_skip (pre s : string) (m : nat) :
  substring (String.length pre) m (pre ++ s) = substring 0 m s.
Proof. induction pre as [|a pre IH]; cbn; [reflexivity | exact IH]. Qed.

Lemma substring_take (x y : string) :
  substring 0 (String.length x) (x ++ y) = x.
Proof.
  induction x as [|a x IH]; cbn.
  - destruct y; reflexivity.
  - rewrite IH. reflexivity.
Qed.

(** Cutting [pre ++ x ++ post] at the two ends of [x] gives [x]. *)
Lemma slice_middle (pre x post : string) :
  slice (pre ++ x ++ post) (len pre) (len pre + len x) = x.
Proof.
  unfold slice, slice_bound, len.
  rewrite !length_append.
  replace (Z.of_nat (String.length pre) <? 0)%Z with false
    by (symmetry; apply Z.ltb_ge; lia).
  replace (Z.of_nat (String.length pre) + Z.of_nat (String.length x) <? 0)%Z
    with false by (symmetry; apply Z.ltb_ge; lia).
  rewrite !Z.min_l by lia.
  destruct (Z.ltb_spec (Z.of_nat (String.length pre))
              (Z.of_nat (String.length pre) + Z.of_nat (String.length x))).
  - rewrite Nat2Z.id.
    replace (Z.to_nat (Z.of_nat (String.length pre)
                       + Z.of_nat (String.length x)
                       - Z.of_nat (String.length pre)))
      with (String.length x) by lia.
    rewrite substring_skip. apply substring_take.
  - destruct x; [reflexivity | cbn [String.length] in *; lia].
Qed.

Lemma find_char_spec (c : ascii) (s : string) :
  forall i, (0 <= i)%Z ->
    find_from (char c) s i = (-1)%Z
    \/ (i <= find_from (char c) s i < i + len s
        /\ get (Z.to_nat (find_from (char c) s i - i)) s = Some c)%Z.
Proof.
  induction s as [|a s IH]; intros i Hi; cbn [find_from].
  - left. reflexivity.
  - rewrite prefix_char. destruct (ascii_dec c a) as [->|Hne].
    + right. unfold len. cbn [String.length].
      replace (i - i)%Z with 0%Z by lia. cbn. split; [lia | reflexivity].
    + destruct (IH (i + 1)%Z) as [H | [Hb Hg]]; [lia | left; exact H|].
      right. unfold len in *. cbn [String.length]. split; [lia|].
      replace (Z.to_nat (find_from (char c) s (i + 1) - i))
        with (S (Z.to_nat (find_from (char c) s (i + 1) - (i + 1))))
        by lia.
      exact Hg.
Qed.

Lemma rfind_char_spec (c : ascii) (s : string) :
  forall i, (0 <= i)%Z ->
    rfind_from (char c) s i = (-1)%Z
    \/ (i <= rfind_from (char c) s i < i + len s
        /\ get (Z.to_nat (rfind_from (char c) s i - i)) s = Some c)%Z.
Proof.
  induction s as [|a s IH]; intros i Hi; cbn [rfind_from].
  - left. reflexivity.
  - destruct (IH (i + 1)%Z) as [H | [Hb Hg]]; [lia | |].
    + rewrite H. change (0 <=? -1)%Z with false. cbv iota.
      rewrite prefix_char.
      destruct (ascii_dec c a) as [->|Hne]; [|left; reflexivity].
      right. unfold len. cbn [String.length].
      replace (i - i)%Z with 0%Z by lia. cbn. split; [lia | reflexivity].
    + replace (0 <=? rfind_from (char c) s (i + 1))%Z with true
        by (symmetry; apply Z.leb_le; lia).
      right. unfold len in *. cbn [String.length]. split; [lia|].
      replace (Z.to_nat (rfind_from (char c) s (i + 1) - i))
        with (S (Z.to_nat (rfind_from (char c) s (i + 1) - (i + 1))))
        by lia.
      exact Hg.
Qed.

Lemma substring_one (s : string) :
  forall k c, get k s = Some c -> substring k 1 s = char c.
Proof.
  induction s as [|a s IH]; intros [|k] c H; cbn in *; try discriminate.
  - injection H as ->. destruct s; reflexivity.
  - apply IH. assumption.
Qed.

Lemma substring_to (s : string) :
  forall n b, get n s = Some b ->
              exists mid, substring 0 (S n) s = mid ++ char b.
Proof.
  induction s as [|a s IH]; intros [|n] b H; cbn in H; try discriminate.
  - injection H as ->. exists "". cbn. destruct s; reflexivity.
  - destruct (IH n b H) as [mid Hmid]. exists (String a mid).
    cbn [substring]. cbn [substring] in Hmid. rewrite Hmid. reflexivity.
Qed.

Lemma substring_between (s : string) :
  forall lo n a b,
    get lo s = Some a -> get (lo + S n) s = Some b ->
    exists mid, substring lo (S (S n)) s = String a (mid ++ char b).
Proof.
  induction s as [|x s IH]; intros [|lo] n a b Ha Hb; cbn in Ha, Hb;
    try discriminate.
  - injection Ha as ->. destruct (substring_to s n b Hb) as [mid Hmid].
    exists mid. cbn [substring]. cbn [substring] in Hmid.
    rewrite Hmid. reflexivity.
  - destruct (IH lo n a b Ha Hb) as [mid Hmid]. exists mid. exact Hmid.
Qed.

End SliceFacts.

(** ** The extraction of the JSON text and the two error paths *)
Module ExtractFacts.
Import Notions SliceFacts.

Lemma append_assoc3 (a b c : string) : (a ++ b) ++ c = a ++ b ++ c.
Proof. induction a as [|x a IH]; cbn; [reflexivity | rewrite IH; reflexivity]. Qed.

(** The text cut out of a reply without opening brace. *)
Lemma cut_without_open (raw : string) :
  find raw "{" = (-1)%Z ->
  slice raw (find raw "{") (rfind raw "}" + 1) = ""
  \/ slice raw (find raw "{") (rfind raw "}" + 1) = "}".
Proof.
  intros Hf. rewrite Hf. unfold rfind, slice, slice_bound.
  change (-1 <? 0)%Z with true. cbv iota.
  destruct (rfind_char_spec "}" raw 0 ltac:(lia)) as [Hr | [Hb Hg]];
    unfold char in *.
  - rewrite Hr. change (-1 + 1 <? 0)%Z with false.
    cbv iota.
    destruct (Z.ltb_spec (Z.max 0 (len raw + -1)) (Z.min (-1 + 1) (len raw)));
      [unfold len in *; lia | left; reflexivity].
  - set (r := rfind_from "}" raw 0) in *.
    replace (r + 1 <? 0)%Z with false by (symmetry; apply Z.ltb_ge; lia).
    destruct (Z.ltb_spec (Z.max 0 (len raw + -1)) (Z.min (r + 1) (len raw)))
      as [Hlt|Hge]; [|left; reflexivity].
    right.
    assert (Hr : r = (len raw - 1)%Z) by lia.
    replace (Z.to_nat (Z.max 0 (len raw + -1))) with (Z.to_nat (r - 0))
      by lia.
    replace (Z.to_nat (Z.min (r + 1) (len raw) - Z.max 0 (len raw + -1)))
      with 1 by lia.
    apply (substring_one raw _ _ Hg).
Qed.

(** The text cut out of a reply that has an opening brace. *)
Lemma cut_with_open (raw : string) :
  find raw "{" <> (-1)%Z ->
  slice raw (find raw "{") (rfind raw "}" + 1) = ""
  \/ exists mid,
       slice raw (find raw "{") (rfind raw "}" + 1) = "{" ++ mid ++ "}".
Proof.
  intros Hf. unfold find, rfind in *.
  destruct (find_char_spec "{" raw 0 ltac:(lia)) as [H | [Hfb Hfg]];
    unfold char in *; [contradiction|].
  set (f := find_from "{" raw 0) in *.
  unfold slice, slice_bound.
  replace (f <? 0)%Z with false by (symmetry; apply Z.ltb_ge; lia).
  destruct (rfind_char_spec "}" raw 0 ltac:(lia)) as [Hr | [Hb Hg]];
    unfold char in *.
  - rewrite Hr. change (-1 + 1 <? 0)%Z with false. cbv iota.
    destruct (Z.ltb_spec (Z.min f (len raw)) (Z.min (-1 + 1) (len raw)));
      [lia | left; reflexivity].
  - set (r := rfind_from "}" raw 0) in *.
    replace (r + 1 <? 0)%Z with false by (symmetry; apply Z.ltb_ge; lia).
    destruct (Z.ltb_spec (Z.min f (len raw)) (Z.min (r + 1) (len raw)))
      as [Hlt|Hge]; [|left; reflexivity].
    right.
    assert (Hne : f <> r).
    { intros Heq. rewrite Heq in Hfg. rewrite Hfg in Hg. discriminate. }
    replace (Z.to_nat (Z.min f (len raw))) with (Z.to_nat (f - 0)) by lia.
    replace (Z.to_nat (Z.min (r + 1) (len raw) - Z.min f (len raw)))
      with (S (S (Z.to_nat (r - f - 1)))) by lia.
    destruct (substring_between raw (Z.to_nat (f - 0)) (Z.to_nat (r - f - 1))
                "{"%char "}"%char Hfg) as [mid Hmid].
    + replace (Z.to_nat (f - 0) + S (Z.to_nat (r - f - 1)))
        with (Z.to_nat (r - 0)) by lia.
      exact Hg.
    + exists mid. exact Hmid.
Qed.

Section Extract.
Variable json_loads : string -> result pyval.

(** X1.  When the reply is some text without opening brace, an object
    text from a brace to a brace, and some text without closing brace, the
    parser is given exactly the object text: the reply's prose around it
    is cut away, and what the parser makes of the object text, or the
    fallback judgment, is the result. *)
Theorem extract_json_cut (raw context pre mid post : string) :
  raw = pre ++ "{" ++ mid ++ "}" ++ post ->
  contains "{" pre = false ->
  contains "}" post = false ->
  slice raw (find raw "{") (rfind raw "}" + 1) = "{" ++ mid ++ "}"
  /\ extract_json json_loads raw context
     = match json_loads ("{" ++ mid ++ "}") with
       | Ok data => data
       | Raise _ => judgment (Some raw) (Some context)
       end.
Proof.
  intros -> Hpre Hpost.
  assert (Hcut : slice (pre ++ "{" ++ mid ++ "}" ++ post)
                   (find (pre ++ "{" ++ mid ++ "}" ++ post) "{")
                   (rfind (pre ++ "{" ++ mid ++ "}" ++ post) "}" + 1)
                 = "{" ++ mid ++ "}").
  { unfold find, rfind.
    change (pre ++ "{" ++ mid ++ "}" ++ post)
      with (pre ++ String "{" (mid ++ "}" ++ post)) at 2.
    rewrite (find_char_append "{" pre _ Hpre).
    replace (pre ++ "{" ++ mid ++ "}" ++ post)
      with ((pre ++ "{" ++ mid) ++ String "}" post) at 2
      by (rewrite !append_assoc3; reflexivity).
    rewrite (rfind_char_append "}" _ post Hpost) by lia.
    replace (0 + len (pre ++ "{" ++ mid) + 1)%Z
      with (len pre + len ("{" ++ mid ++ "}"))%Z.
    - replace (pre ++ "{" ++ mid ++ "}" ++ post)
        with (pre ++ ("{" ++ mid ++ "}") ++ post)
        by (cbn [append]; rewrite append_assoc3; reflexivity).
      apply (slice_middle pre ("{" ++ mid ++ "}") post).
    - unfold len. rewrite !length_append. cbn [String.length]. lia. }
  split; [exact Hcut|].
  unfold extract_json. rewrite Hcut. reflexivity.
Qed.

(** X2.  Whatever the reply, the text that reaches the parser is empty, a
    lone closing brace, or a text that begins with an opening and ends
    with a closing brace; the result is the parser's value on it or the
    fallback judgment. *)
Theorem extract_json_text_shape (raw context : string) :
  exists json_text,
    (json_text = "" \/ json_text = "}"
     \/ exists mid, json_text = "{" ++ mid ++ "}")
    /\ extract_json json_loads raw context
       = match json_loads json_text with
         | Ok data => data
         | Raise _ => judgment (Some raw) (Some context)
         end.
Proof.
  exists (slice raw (find raw "{") (rfind raw "}" + 1)). split.
  - destruct (Z.eq_dec (find raw "{") (-1)) as [Hf|Hf].
    + destruct (cut_without_open raw Hf); tauto.
    + destruct (cut_with_open raw Hf) as [H | H]; tauto.
  - reflexivity.
Qed.

(** X3.  A reply without any opening brace ends in the fallback judgment,
    the reply as its issue, as soon as the parser rejects the empty text
    and the lone closing brace. *)
Theorem extract_json_without_brace (raw context : string) (e1 e2 : exn) :
  contains "{" raw = false ->
  json_loads "" = Raise e1 ->
  json_loads "}" = Raise e2 ->
  extract_json json_loads raw context
  = PDict [ ("compliant", PNone); ("issue", PStr raw);
            ("suggestion", PNone); ("citation", PStr context) ].
Proof.
  intros Hno H1 H2. unfold extract_json.
  destruct (cut_without_open raw (find_char_none "{" raw Hno 0)) as [-> | ->].
  - rewrite H1. reflexivity.
  - rewrite H2. reflexivity.
Qed.

End Extract.

End ExtractFacts.

(** ** The error paths of the clause check *)
Module JudgeErrorFacts.

Section Judge.
Context {VS : VectorStore}.
Variable W : Type.
Variable json_loads : string -> result pyval.

(** X4.  When the adapter raises on a handle that is there, there are
    two cases.  Either the exception is of the class [Exception]: then it
    is the [RuntimeError] that wraps what a direct call on the handle
    raised, the clause check reports it in a judgment whose issue reads
    "LLM error: LLM call failed: " followed by the message of that call's
    exception, and the world is the one that call left.  Or it is not:
    then it is what some call on the handle raised, and the clause check
    raises it as it is.  The adapter's own "LLM instance is None" never
    shows up. *)
Theorem judge_llm_error_origin (clause_text : string) (vs : FAISS)
  (h : Backend W) (k : Z) (w : W) (docs : list hit) (e : exn) (w' : W) :
  similarity_search vs clause_text k = Ok docs ->
  let prompt := PROMPT_TEMPLATE clause_text (context_of docs) in
  let out :=
    check_clause_with_rag W json_loads clause_text (Some vs) (Some h) k w in
  _call_llm_tolerant W (Some h) prompt w = (Raise e, w') ->
  (exists e0 w0,
      llm_call h prompt w0 = (Raise e0, w')
      /\ isinstance_Exception e0 = true
      /\ e = mk_exn RuntimeError ("LLM call failed: " ++ exc_msg e0)
      /\ out
         = (Ok (PDict [ ("compliant", PNone);
                        ("issue",
                         PStr ("LLM error: " ++ "LLM call failed: "
                               ++ exc_msg e0));
                        ("suggestion", PNone);
                        ("citation", PStr (context_of docs)) ]), w'))
  \/ (isinstance_Exception e = false
      /\ raised_by_handle h prompt e w'
      /\ out = (Raise e, w')).
Proof.
  intros Hdocs prompt out Hcall. subst out.
  unfold check_clause_with_rag. rewrite Hdocs. fold prompt. rewrite Hcall.
  destruct (AdapterFacts.adapter_raise_origin W h prompt w e w' Hcall)
    as [(Hclass & e0 & w0 & Hlast & Hclass0 & He) | [Hclass Hfrom]];
    rewrite Hclass.
  - left. exists e0, w0. subst e.
    split; [exact Hlast|]. split; [exact Hclass0|]. split; reflexivity.
  - right. split; [reflexivity|]. split; [exact Hfrom | reflexivity].
Qed.

(** X5.  An exception of the search is not absorbed by the clause check:
    it comes out as it is, before any call on the handle, the world
    untouched.  The caller's [try] turns it into the dict whose issue is
    "RAG error: " and the message, with no citation, if it is of the
    class [Exception]; if it is not, it leaves the caller's [try] as
    well. *)
Theorem search_error_surfaces (para_text : string) (vs : FAISS)
  (llm : option (Backend W)) (w : W) (e : exn) :
  similarity_search vs para_text 3 = Raise e ->
  check_clause_with_rag W json_loads para_text (Some vs) llm 3 w
  = (Raise e, w)
  /\ App.rag_result_for W json_loads para_text (Some vs) llm w
     = if isinstance_Exception e
       then (Ok (PDict [ ("compliant", PNone);
                         ("issue", PStr ("RAG error: " ++ exc_msg e));
                         ("suggestion", PNone); ("citation", PNone) ]), w)
       else (Raise e, w).
Proof.
  intros Hsearch.
  assert (H : check_clause_with_rag W json_loads para_text (Some vs) llm 3 w
              = (Raise e, w))
    by (unfold check_clause_with_rag; rewrite Hsearch; reflexivity).
  split; [exact H|]. unfold App.rag_result_for. rewrite H. reflexivity.
Qed.

End Judge.

End JudgeErrorFacts.

(** ** The extraction and the error paths in the in-memory world *)
Module ExtractRuns.
Import Samples.

Lemma extract_json_cut_witness :
  slice verdict_reply (find verdict_reply "{") (rfind verdict_reply "}" + 1)
  = "{" ++ (DQ ++ "compliant" ++ DQ ++ ": false") ++ "}"
  /\ extract_json Json.loads verdict_reply "context"
     = match Json.loads ("{" ++ (DQ ++ "compliant" ++ DQ ++ ": false") ++ "}")
       with
       | Ok data => data
       | Raise _ => judgment (Some verdict_reply) (Some "context")
       end.
Proof.
  apply (ExtractFacts.extract_json_cut Json.loads verdict_reply "context"
           "Verdict: " (DQ ++ "compliant" ++ DQ ++ ": false")
           " as requested.").
  - reflexivity.
  - vm_compute. reflexivity.
  - vm_compute. reflexivity.
Defined.

Example extract_json_cut_value :
  extract_json Json.loads verdict_reply "context"
  = PDict [ ("compliant", PBool false) ].
Proof. vm_compute. reflexivity. Qed.

Lemma extract_json_without_brace_witness :
  extract_json Json.loads "I cannot assess this. }" "context"
  = PDict [ ("compliant", PNone); ("issue", PStr "I cannot assess this. }");
            ("suggestion", PNone); ("citation", PStr "context") ].
Proof.
  apply (ExtractFacts.extract_json_without_brace Json.loads
           "I cannot assess this. }" "context"
           (mk_exn JSONDecodeError "Expecting value")
           (mk_exn JSONDecodeError "Expecting value")).
  - vm_compute. reflexivity.
  - vm_compute. reflexivity.
  - vm_compute. reflexivity.
Defined.

Lemma judge_llm_error_origin_witness :
  exists e0 w0,
    llm_call broken
      (PROMPT_TEMPLATE sample_clause (context_of sample_hits)) w0
    = (Raise e0, 4)
    /\ isinstance_Exception e0 = true
    /\ mk_exn RuntimeError "LLM call failed: direct timed out"
       = mk_exn RuntimeError ("LLM call failed: " ++ exc_msg e0)
    /\ check_clause_with_rag nat Json.loads sample_clause (Some sample_store)
         (Some broken) 1 0
       = (Ok (PDict [ ("compliant", PNone);
                      ("issue",
                       PStr ("LLM error: " ++ "LLM call failed: "
                             ++ exc_msg e0));
                      ("suggestion", PNone);
                      ("citation", PStr (context_of sample_hits)) ]), 4).
Proof.
  destruct (JudgeErrorFacts.judge_llm_error_origin (VS := mem_store) nat
              Json.loads sample_clause sample_store broken 1 0 sample_hits
              (mk_exn RuntimeError "LLM call failed: direct timed out") 4
              JudgeRuns.sample_search)
    as [Hwrapped | [Hclass _]].
  - vm_compute. reflexivity.
  - exact Hwrapped.
  - discriminate Hclass.
Defined.

(** An interrupt of the direct call is raised by the clause check. *)
Example judge_llm_interrupt_origin :
  raised_by_handle (interrupted "{}")
    (PROMPT_TEMPLATE sample_clause (context_of sample_hits))
    (mk_exn KeyboardInterrupt "") 1
  /\ check_clause_with_rag nat Json.loads sample_clause (Some sample_store)
       (Some (interrupted "{}")) 1 0
     = (Raise (mk_exn KeyboardInterrupt ""), 1).
Proof.
  split; [left; exists 0; reflexivity | vm_compute; reflexivity].
Qed.

Lemma search_error_surfaces_witness :
  check_clause_with_rag (VS := failing_store) nat Json.loads sample_clause
    (Some tt) (Some broken) 3 0
  = (Raise (mk_exn RuntimeError "index is corrupt"), 0)
  /\ App.rag_result_for (VS := failing_store) nat Json.loads sample_clause
       (Some tt) (Some broken) 0
     = (Ok (PDict [ ("compliant", PNone);
                    ("issue",
                     PStr ("RAG error: "
                           ++ exc_msg (mk_exn RuntimeError
                                         "index is corrupt")));
                    ("suggestion", PNone); ("citation", PNone) ]), 0).
Proof.
  apply (JudgeErrorFacts.search_error_surfaces (VS := failing_store) nat
           Json.loads sample_clause tt (Some broken) 0
           (mk_exn RuntimeError "index is corrupt")).
  reflexivity.
Defined.

(** A store whose search ends the process: the exit passes the clause
    check and the caller's [try]. *)
Example search_exit_leaves_the_try :
  App.rag_result_for (VS := exiting_store) nat Json.loads sample_clause
    (Some tt) None 0
  = (Raise (mk_exn SystemExit "1"), 0).
Proof. reflexivity. Qed.

End ExtractRuns.

(** ** More on the red-flag annotator *)
Module AnnotatorFacts.

Lemma first_paragraph_in_range (flag : string) (ps : list string) (i : Z) :
  first_paragraph_with flag ps i ->
  (0 <= i < Z.of_nat (List.length ps))%Z
  /\ exists p, nth_error ps (Z.to_nat i) = Some p
               /\ contains (lower flag) (lower p) = true.
Proof.
  intros (n & p & -> & Hn & Hc & _).
  assert (n < List.length ps) by (apply nth_error_Some; congruence).
  split; [lia|]. exists p. rewrite Nat2Z.id. auto.
Qed.

Lemma locate_in_range (iss : issue) (ps : list string) :
  (0 <= locate iss ps)%Z
  /\ (ps <> [] -> (locate iss ps < Z.of_nat (List.length ps))%Z).
Proof.
  destruct (RedFlagsFacts.locate_cases iss ps) as [H0 | (m & _ & _ & H)].
  - rewrite H0. split; [lia|]. intros Hne.
    destruct ps; [contradiction | cbn [List.length]; lia].
  - apply first_paragraph_in_range in H. destruct H as [H _].
    split; [lia | intros _; lia].
Qed.

(** The annotation of an issue whose match text is in some paragraph
    points at a paragraph that contains it. *)
Lemma locate_hits (iss : issue) (ps : list string) (m p : string) :
  iss_match iss = Some m -> m <> "" ->
  In p ps -> contains (lower m) (lower p) = true ->
  exists q, nth_error ps (Z.to_nat (locate iss ps)) = Some q
            /\ contains (lower m) (lower q) = true.
Proof.
  intros Hm Hne Hin Hc. unfold locate, truthy. rewrite Hm.
  destruct (String.eqb_spec m "") as [Heq|Hneq]; [contradiction|].
  cbn [negb].
  destruct (RedFlagsFacts.first_containing_spec (lower m) ps 0)
    as [[_ Hnone] | (n & q & Hf & Hn & Hq & _)].
  - rewrite (Hnone p Hin) in Hc. discriminate.
  - rewrite Hf.
    replace (0 + Z.of_nat n =? -1)%Z with false
      by (symmetry; apply Z.eqb_neq; lia).
    exists q. replace (Z.to_nat (0 + Z.of_nat n)) with n by lia. auto.
Qed.

Lemma paragraph_at_nth (ps : list string) (i : Z) :
  (0 <= i < Z.of_nat (List.length ps))%Z ->
  exists p, nth_error ps (Z.to_nat i) = Some p
            /\ App.paragraph_at ps i = Ok p.
Proof.
  intros Hi. exists (nth (Z.to_nat i) ps ""). split.
  - apply nth_error_nth'. lia.
  - unfold App.paragraph_at.
    replace (i <? Z.of_nat (List.length ps))%Z with true
      by (symmetry; apply Z.ltb_lt; lia).
    replace (0 <=? i)%Z with true by (symmetry; apply Z.leb_le; lia).
    reflexivity.
Qed.

(** An index that is not below [-len(paragraphs)] is looked up without
    an exception. *)
Lemma paragraph_at_ok (ps : list string) (i : Z) :
  (- Z.of_nat (List.length ps) <= i)%Z ->
  exists p, App.paragraph_at ps i = Ok p.
Proof.
  intros Hi. unfold App.paragraph_at. cbv zeta.
  destruct (i <? Z.of_nat (List.length ps))%Z; [|eexists; reflexivity].
  destruct (0 <=? i)%Z; [eexists; reflexivity|].
  replace (- Z.of_nat (List.length ps) <=? i)%Z with true
    by (symmetry; apply Z.leb_le; lia).
  eexists; reflexivity.
Qed.

Lemma map_nil_iff {A B} (f : A -> B) (l : list A) :
  map f l = [] <-> l = [].
Proof. destruct l; cbn; split; congruence. Qed.

Lemma app_nil_iff {A} (l1 l2 : list A) :
  (l1 ++ l2)%list = [] <-> l1 = [] /\ l2 = [].
Proof.
  split; [apply app_eq_nil | intros [-> ->]; reflexivity].
Qed.

Lemma flat_map_nil_iff {A B} (f : A -> list B) (l : list A) :
  flat_map f l = [] <-> forall x, In x l -> f x = [].
Proof.
  induction l as [|y l IH]; cbn [flat_map].
  - split; [intros _ x [] | reflexivity].
  - rewrite app_nil_iff, IH. split.
    + intros [Hy Hl] x [<- | Hx]; auto.
    + intros H. split; [apply H; left; reflexivity|].
      intros x Hx. apply H. right. exact Hx.
Qed.

Section Annotator.
Context {RE : Regex}.

(** X6.  The paragraph index of every annotation is a valid position of
    the document as soon as the document has a paragraph: it is never
    negative and stays below the number of paragraphs, so that the
    caller's lookup [paragraphs[p_idx] if p_idx < len(paragraphs) else ""]
    yields the paragraph at that position, counted from the start, and
    does not raise; the empty-string default is reached only for a
    document without paragraphs. *)
Theorem annotation_index_in_document (text : string)
  (paragraphs : list string) (a : annotation) :
  In a (run_all_checks text paragraphs) ->
  (0 <= paragraph_index a)%Z
  /\ (paragraphs <> [] ->
      (paragraph_index a < Z.of_nat (List.length paragraphs))%Z
      /\ exists p,
           nth_error paragraphs (Z.to_nat (paragraph_index a)) = Some p
           /\ App.paragraph_at paragraphs (paragraph_index a) = Ok p)
  /\ (paragraphs = [] ->
      App.paragraph_at paragraphs (paragraph_index a) = Ok "").
Proof.
  intros Ha. unfold run_all_checks in Ha. apply in_map_iff in Ha.
  destruct Ha as (iss & <- & _). cbn [map_issue paragraph_index].
  destruct (locate_in_range iss paragraphs) as [H0 Hlt].
  split; [exact H0|]. split.
  - intros Hne. split; [exact (Hlt Hne)|].
    apply paragraph_at_nth. split; [exact H0 | exact (Hlt Hne)].
  - intros ->. unfold App.paragraph_at. cbn [List.length]. cbv zeta.
    destruct (locate iss [] <? Z.of_nat 0)%Z eqn:E; [|reflexivity].
    apply Z.ltb_lt in E. lia.
Qed.

(** X7.  When the flagged text of an annotation occurs in some paragraph,
    letter case apart, the paragraph that the caller submits to the clause
    check for this annotation contains it. *)
Theorem checked_paragraph_contains_flag (text : string)
  (paragraphs : list string) (a : annotation) (p : string) :
  In a (run_all_checks text paragraphs) ->
  flag_text a <> "" ->
  In p paragraphs ->
  contains (lower (flag_text a)) (lower p) = true ->
  exists q,
    App.paragraph_at paragraphs (paragraph_index a) = Ok q
    /\ In q paragraphs
    /\ contains (lower (flag_text a)) (lower q) = true.
Proof.
  intros Ha Hflag Hin Hc. unfold run_all_checks in Ha.
  apply in_map_iff in Ha. destruct Ha as (iss & <- & _).
  cbn [map_issue paragraph_index flag_text] in *.
  destruct (iss_match iss) as [m|] eqn:Em; [|contradiction].
  destruct (locate_hits iss paragraphs m p Em Hflag Hin Hc)
    as (q & Hq & Hcq).
  destruct (locate_in_range iss paragraphs) as [H0 Hlt].
  assert (Hne : paragraphs <> []) by (intros ->; destruct Hin).
  destruct (paragraph_at_nth paragraphs (locate iss paragraphs)
              (conj H0 (Hlt Hne))) as (q' & Hnth & Hat).
  rewrite Hq in Hnth. injection Hnth as <-.
  exists q. split; [exact Hat|].
  split; [eapply nth_error_In; eassumption | assumption].
Qed.

(** X8.  The check returns no annotation exactly when the engine finds
    no match of any of the three jurisdiction patterns and the five
    ambiguity patterns in the text and finds a signature phrase in the
    joined paragraphs. *)
Theorem run_all_checks_clean (text : string) (paragraphs : list string) :
  run_all_checks text paragraphs = []
  <-> (forall pat,
          In pat (map fst jurisdiction_patterns ++ ambiguous_patterns) ->
          re_finditer pat text = [])
      /\ re_search signature_pattern (join NL paragraphs) = true.
Proof.
  unfold run_all_checks, all_issues.
  rewrite map_nil_iff, !app_nil_iff.
  unfold detect_wrong_jurisdiction, detect_ambiguous_language.
  rewrite !flat_map_nil_iff.
  unfold detect_missing_signature_block.
  split.
  - intros (Hj & Ha & Hs). split.
    + intros pat Hpat. apply in_app_or in Hpat. destruct Hpat as [Hpat|Hpat].
      * apply in_map_iff in Hpat. destruct Hpat as ([pat' msg] & <- & Hin).
        specialize (Hj _ Hin). cbn [fst]. cbn in Hj.
        apply map_nil_iff in Hj. exact Hj.
      * specialize (Ha _ Hpat). cbn in Ha. apply map_nil_iff in Ha. exact Ha.
    + destruct (re_search signature_pattern (join NL paragraphs));
        [reflexivity | discriminate].
  - intros [Hall Hsig]. rewrite Hsig. split; [|split; [|reflexivity]].
    + intros [pat msg] Hin. rewrite Hall; [reflexivity|].
      apply in_or_app. left. apply in_map_iff. exists (pat, msg). auto.
    + intros pat Hin. rewrite Hall; [reflexivity|].
      apply in_or_app. right. exact Hin.
Qed.

End Annotator.

(** The lookup as the interpreter does it: a negative index counts from
    the end of the list, and one below [-len(paragraphs)] raises. *)
Example paragraph_at_negative :
  App.paragraph_at MemWorld.clause_paragraphs (-1)
  = Ok "Signed by the director."
  /\ App.paragraph_at MemWorld.clause_paragraphs (-4)
     = Raise (mk_exn (OtherError "IndexError") "list index out of range")
  /\ App.paragraph_at [] (-1)
     = Raise (mk_exn (OtherError "IndexError") "list index out of range")
  /\ App.paragraph_at MemWorld.clause_paragraphs 7 = Ok "".
Proof. repeat split. Qed.

Lemma annotation_index_in_document_witness :
  (0 <= 1)%Z
  /\ (MemWorld.clause_paragraphs <> [] ->
      (1 < Z.of_nat (List.length MemWorld.clause_paragraphs))%Z
      /\ exists p,
           nth_error MemWorld.clause_paragraphs (Z.to_nat 1) = Some p
           /\ App.paragraph_at MemWorld.clause_paragraphs 1 = Ok p)
  /\ (MemWorld.clause_paragraphs = [] ->
      App.paragraph_at MemWorld.clause_paragraphs 1 = Ok "").
Proof.
  apply (annotation_index_in_document (RE := mem_regex) MemWorld.clause_text
           MemWorld.clause_paragraphs
           (mk_annotation 1 "may" "Ambiguous/non-binding phrase: 'may'"
              "Medium")).
  vm_compute. right. left. reflexivity.
Defined.

Lemma checked_paragraph_contains_flag_witness :
  exists q,
    App.paragraph_at MemWorld.clause_paragraphs 1 = Ok q
    /\ In q MemWorld.clause_paragraphs
    /\ contains (lower "may") (lower q) = true.
Proof.
  apply (checked_paragraph_contains_flag (RE := mem_regex)
           MemWorld.clause_text MemWorld.clause_paragraphs
           (mk_annotation 1 "may" "Ambiguous/non-binding phrase: 'may'"
              "Medium")
           "The company may act.").
  - vm_compute. right. left. reflexivity.
  - discriminate.
  - vm_compute. right. left. reflexivity.
  - vm_compute. reflexivity.
Defined.

Lemma run_all_checks_clean_witness :
  run_all_checks (RE := mem_regex) "Signed by the director."
    [ "Signed by the director." ] = [].
Proof.
  apply (proj2 (run_all_checks_clean (RE := mem_regex)
                  "Signed by the director." [ "Signed by the director." ])).
  split.
  - intros pat Hpat. cbn [map fst app In jurisdiction_patterns
                            ambiguous_patterns] in Hpat.
    repeat (destruct Hpat as [<- | Hpat]; [vm_compute; reflexivity|]).
    destruct Hpat.
  - vm_compute. reflexivity.
Defined.

End AnnotatorFacts.

(** ** Loading the corpus *)
Module CorpusFacts.

Section Corpus.
Context {VS : VectorStore} {P : Platform}.

Lemma load_files_all_ok (disk : fs) (folder : string)
  (loaded : string -> list Document) (names : list string) :
  (forall name, In name names ->
                load_file disk folder name = Ok (loaded name)) ->
  forall docs,
    load_files disk folder names docs
    = Ok (docs ++ flat_map loaded names)%list.
Proof.
  induction names as [|name names IH]; intros Hall docs;
    cbn [load_files flat_map].
  - rewrite app_nil_r. reflexivity.
  - rewrite (Hall name (or_introl eq_refl)). cbn [bind].
    rewrite IH by (intros n Hn; apply Hall; right; exact Hn).
    rewrite app_assoc. reflexivity.
Qed.

(** X9.  The corpus is the concatenation, in the order of the folder
    listing, of what the loaders return for each file; the first loader
    that raises ends the loading with its exception, whatever was loaded
    before; and a name that ends neither in [.pdf] nor in [.txt], letter
    case apart, contributes nothing and is never opened. *)
Theorem load_files_in_listing_order (disk : fs) (folder : string)
  (loaded : string -> list Document) :
  (forall names docs,
      (forall name, In name names ->
                    load_file disk folder name = Ok (loaded name)) ->
      load_files disk folder names docs
      = Ok (docs ++ flat_map loaded names)%list)
  /\ (forall before name after docs e,
         (forall n, In n before ->
                    load_file disk folder n = Ok (loaded n)) ->
         load_file disk folder name = Raise e ->
         load_files disk folder (before ++ name :: after)%list docs = Raise e)
  /\ (forall name,
         endswith (lower name) ".pdf" = false ->
         endswith (lower name) ".txt" = false ->
         load_file disk folder name = Ok []).
Proof.
  split; [|split].
  - intros names docs Hall. apply load_files_all_ok. exact Hall.
  - intros before. induction before as [|n before IH];
      intros name after docs e Hall Hraise; cbn [app load_files].
    + rewrite Hraise. reflexivity.
    + rewrite (Hall n (or_introl eq_refl)). cbn [bind].
      apply IH; [|exact Hraise].
      intros m Hm. apply Hall. right. exact Hm.
  - intros name Hpdf Htxt. unfold load_file. rewrite Hpdf, Htxt. reflexivity.
Qed.

End Corpus.

Import Samples.

Lemma load_files_in_listing_order_witness :
  load_files (P := mem_platform) two_files "legal_refs"
    [ "a.TXT"; "notes.md"; "b.txt" ] []
  = Ok ([] ++ flat_map loaded_from_two_files [ "a.TXT"; "notes.md"; "b.txt" ])%list
  /\ load_files (P := mem_platform) two_files "legal_refs"
       ([ "a.TXT" ] ++ "missing.txt" :: [ "b.txt" ])%list []
     = Raise (mk_exn RuntimeError ("Error loading " ++ "legal_refs/missing.txt"))
  /\ load_file (P := mem_platform) two_files "legal_refs" "notes.md" = Ok [].
Proof.
  destruct (load_files_in_listing_order (P := mem_platform) two_files
              "legal_refs" loaded_from_two_files) as (Hall & Hfirst & Hskip).
  split; [|split].
  - apply Hall. intros name Hname. cbn [In] in Hname.
    repeat (destruct Hname as [<- | Hname]; [vm_compute; reflexivity|]).
    destruct Hname.
  - apply Hfirst.
    + intros n [<- | []]. vm_compute. reflexivity.
    + vm_compute. reflexivity.
  - apply Hskip; vm_compute; reflexivity.
Defined.

End CorpusFacts.

(** ** The checklist *)
Module DocCheckerFacts.
Import DocChecker Notions.

Lemma match_required_ok (lower_names required : list string) :
  lower_names <> [] ->
  (forall r, In r required -> first_word (lower r) <> None) ->
  forall matched,
    match_required required lower_names matched
    = Ok (matched ++ filter (names_mention lower_names) required)%list.
Proof.
  intros Hne. induction required as [|r required IH]; intros Hall matched;
    cbn [match_required filter].
  - rewrite app_nil_r. reflexivity.
  - unfold first_word_in_names, names_mention.
    destruct lower_names as [|n0 names]; [contradiction|].
    destruct (first_word (lower r)) as [w|] eqn:Ew;
      [|exfalso; apply (Hall r (or_introl eq_refl)); exact Ew].
    cbn [bind].
    rewrite IH by (intros r' Hr'; apply Hall; right; exact Hr').
    destruct (existsb (fun n => contains w n) (n0 :: names)).
    + rewrite <- app_assoc. reflexivity.
    + reflexivity.
Qed.

Lemma match_required_blank (lower_names required : list string) (r : string) :
  lower_names <> [] ->
  In r required -> first_word (lower r) = None ->
  forall matched,
    match_required required lower_names matched
    = Raise (mk_exn (OtherError "IndexError") "list index out of range").
Proof.
  intros Hne. induction required as [|r' required IH]; intros Hin Hblank matched;
    [destruct Hin|].
  cbn [match_required]. unfold first_word_in_names.
  destruct lower_names as [|n0 names]; [contradiction|].
  destruct (first_word (lower r')) as [w|] eqn:Ew.
  - cbn [bind]. apply IH; [|exact Hblank].
    destruct Hin as [-> | Hin]; [congruence | exact Hin].
  - reflexivity.
Qed.

Lemma mentions_needs_names (lower_names : list string) :
  mentions_incorporation lower_names = true -> lower_names <> [].
Proof. intros H ->. discriminate. Qed.

Lemma blank_or_not (required : list string) :
  (exists r, In r required /\ first_word (lower r) = None)
  \/ (forall r, In r required -> first_word (lower r) <> None).
Proof.
  induction required as [|r required IH].
  - right. intros r [].
  - destruct (first_word (lower r)) eqn:E.
    + destruct IH as [(r' & Hin & Hb) | Hall].
      * left. exists r'. split; [right; exact Hin | exact Hb].
      * right. intros r' [<- | Hin]; [congruence | apply Hall; exact Hin].
    + left. exists r. split; [left; reflexivity | exact E].
Qed.

(** The result of the function, case by case. *)
Lemma identify_cases (filenames : list string) (cl : checklists) :
  let names := lower_names_of filenames in
  let required := required_for (Some COMPANY_INCORPORATION) cl in
  (mentions_incorporation names = true
   /\ (exists r, In r required /\ first_word (lower r) = None)
   /\ identify_process_from_filenames filenames cl
      = Raise (mk_exn (OtherError "IndexError") "list index out of range"))
  \/ (mentions_incorporation names = true
      /\ (forall r, In r required -> first_word (lower r) <> None)
      /\ filenames <> []
      /\ identify_process_from_filenames filenames cl
         = Ok (Some COMPANY_INCORPORATION,
               filter (names_mention names) required))
  \/ (mentions_incorporation names = false
      /\ identify_process_from_filenames filenames cl
         = Ok (match filenames with
               | [] => None
               | _ :: _ => Some COMPANY_INCORPORATION
               end, [])).
Proof.
  intros names required. unfold identify_process_from_filenames.
  fold names. fold required.
  destruct (mentions_incorporation names) eqn:Em.
  - pose proof (mentions_needs_names names Em) as Hne.
    destruct (blank_or_not required) as [(r & Hin & Hb) | Hall].
    + left. split; [reflexivity|]. split; [eauto|].
      rewrite (match_required_blank names required r Hne Hin Hb).
      reflexivity.
    + right. left. split; [reflexivity|]. split; [exact Hall|]. split.
      * intros ->. apply Hne. reflexivity.
      * rewrite (match_required_ok names required Hne Hall). reflexivity.
  - right. right. split; [reflexivity|]. cbn [bind].
    destruct filenames; reflexivity.
Qed.

Lemma in_list_spec (d : string) (l : list string) :
  in_list d l = true <-> In d l.
Proof.
  unfold in_list. rewrite existsb_exists. split.
  - intros (x & Hin & Heq). apply String.eqb_eq in Heq. subst. exact Hin.
  - intros Hin. exists d. split; [exact Hin | apply String.eqb_refl].
Qed.

Lemma filter_split_length {A} (f : A -> bool) (l : list A) :
  List.length (filter f l) + List.length (filter (fun x => negb (f x)) l)
  = List.length l.
Proof.
  induction l as [|x l IH]; cbn [filter]; [reflexivity|].
  destruct (f x); cbn [negb List.length]; lia.
Qed.

(** The required documents split into the matched and the missing ones,
    when the matched ones were picked from them by a test. *)
Lemma report_of_filter (process : option string) (cl : checklists)
  (test : string -> bool) :
  let required := required_for process cl in
  let report := checklist_results process (filter test required) cl in
  documents_uploaded report + List.length (missing_documents report)
  = required_documents report
  /\ forall d, In d required ->
               (In d (filter test required)
                <-> ~ In d (missing_documents report)).
Proof.
  intros required report. unfold report, checklist_results.
  fold required. cbn [documents_uploaded missing_documents required_documents].
  assert (Hsame : filter (fun d => negb (in_list d (filter test required)))
                    required
                  = filter (fun d => negb (test d)) required).
  { apply filter_ext_in. intros d Hd. f_equal.
    destruct (test d) eqn:Et.
    - apply in_list_spec. apply filter_In. auto.
    - destruct (in_list d (filter test required)) eqn:E; [|reflexivity].
      apply in_list_spec in E. apply filter_In in E. destruct E. congruence. }
  rewrite Hsame. split; [apply filter_split_length|].
  intros d Hd. rewrite !filter_In. destruct (test d); cbn [negb]; split.
  - intros _ [_ H]. discriminate.
  - intros _. auto.
  - intros [_ H]. discriminate.
  - intros H. exfalso. apply H. auto.
Qed.

(** X10.  When the function returns, the process is [None] for an empty
    list of file names and "Company Incorporation" for any other list,
    whether or not a name mentions the articles or the memorandum. *)
Theorem identify_process_default (filenames : list string) (cl : checklists)
  (process : option string) (matched : list string) :
  identify_process_from_filenames filenames cl = Ok (process, matched) ->
  (filenames = [] -> process = None /\ matched = [])
  /\ (filenames <> [] -> process = Some COMPANY_INCORPORATION).
Proof.
  intros Hrun.
  destruct (identify_cases filenames cl)
    as [(_ & _ & H) | [(_ & _ & Hne & H) | (Em & H)]];
    rewrite H in Hrun; [discriminate | |];
    injection Hrun as <- <-.
  - split; [intros Heq; contradiction | reflexivity].
  - split.
    + intros ->. split; reflexivity.
    + intros Hne. destruct filenames; [contradiction | reflexivity].
Qed.

(** X11.  The function raises exactly when some name mentions the
    articles or the memorandum and the checklist of the process has an
    entry without any word (empty or white space only); the exception is
    then the [IndexError] of [split()[0]]. *)
Theorem identify_process_raises_iff (filenames : list string)
  (cl : checklists) :
  ((exists e, identify_process_from_filenames filenames cl = Raise e)
   <-> mentions_incorporation (lower_names_of filenames) = true
       /\ exists r,
            In r (required_for (Some COMPANY_INCORPORATION) cl)
            /\ first_word (lower r) = None)
  /\ forall e,
       identify_process_from_filenames filenames cl = Raise e ->
       e = mk_exn (OtherError "IndexError") "list index out of range".
Proof.
  destruct (identify_cases filenames cl)
    as [(Em & Hb & H) | [(Em & Hall & _ & H) | (Em & H)]]; rewrite H.
  - split; [|intros e He; congruence].
    split; [intros _; auto | intros _; eauto].
  - split; [|intros e He; discriminate].
    split; [intros [e He]; discriminate|].
    intros [_ (r & Hin & Hr)]. exfalso. exact (Hall r Hin Hr).
  - split; [|intros e He; discriminate].
    split; [intros [e He]; discriminate|].
    intros [Em' _]. congruence.
Qed.

(** X12.  When the function returns, the matched documents are, in the
    order of the checklist, the required documents of "Company
    Incorporation" whose first word, in lower case, occurs in the
    lower-cased base name of some file; and no document is matched when
    no name mentions the articles or the memorandum, even though the
    process is then set all the same. *)
Theorem identify_process_matched (filenames : list string) (cl : checklists)
  (process : option string) (matched : list string) :
  identify_process_from_filenames filenames cl = Ok (process, matched) ->
  matched
  = (if mentions_incorporation (lower_names_of filenames)
     then filter (names_mention (lower_names_of filenames))
            (required_for (Some COMPANY_INCORPORATION) cl)
     else [])
  /\ forall r, In r matched ->
               In r (required_for (Some COMPANY_INCORPORATION) cl)
               /\ exists w n,
                    first_word (lower r) = Some w
                    /\ In n (lower_names_of filenames)
                    /\ contains w n = true.
Proof.
  intros Hrun.
  assert (Heq : matched
                = if mentions_incorporation (lower_names_of filenames)
                  then filter (names_mention (lower_names_of filenames))
                         (required_for (Some COMPANY_INCORPORATION) cl)
                  else []).
  { destruct (identify_cases filenames cl)
      as [(_ & _ & H) | [(Em & _ & _ & H) | (Em & H)]];
      rewrite H in Hrun; [discriminate | |];
      injection Hrun as <- <-; rewrite Em; reflexivity. }
  split; [exact Heq|].
  intros r Hr. rewrite Heq in Hr.
  destruct (mentions_incorporation (lower_names_of filenames));
    [|destruct Hr].
  apply filter_In in Hr. destruct Hr as [Hin Hm]. split; [exact Hin|].
  unfold names_mention in Hm.
  destruct (first_word (lower r)) as [w|]; [|discriminate].
  apply existsb_exists in Hm. destruct Hm as (n & Hn & Hc).
  exists w, n. auto.
Qed.

(** X13.  Fed with the process and the matched documents that
    [identify_process_from_filenames] returned, the report adds up: the
    number of matched documents and the number of missing ones make the
    number of required ones, and each required document is either matched
    or missing. *)
Theorem checklist_report_adds_up (filenames : list string) (cl : checklists)
  (process : option string) (matched : list string) :
  identify_process_from_filenames filenames cl = Ok (process, matched) ->
  let report := checklist_results process matched cl in
  documents_uploaded report + List.length (missing_documents report)
  = required_documents report
  /\ forall d, In d (required_for process cl) ->
               (In d matched <-> ~ In d (missing_documents report)).
Proof.
  intros Hrun.
  destruct (identify_cases filenames cl)
    as [(_ & _ & H) | [(_ & _ & _ & H) | (_ & H)]];
    rewrite H in Hrun; [discriminate | |];
    injection Hrun as <- <-.
  - apply (report_of_filter (Some COMPANY_INCORPORATION) cl
             (names_mention (lower_names_of filenames))).
  - pose proof (report_of_filter
                  (match filenames with
                   | [] => None
                   | _ :: _ => Some COMPANY_INCORPORATION
                   end) cl (fun _ => false)) as Hrep.
    assert (Hnil : forall l : list string, filter (fun _ => false) l = [])
      by (induction l; [reflexivity | assumption]).
    cbv zeta in Hrep. rewrite Hnil in Hrep. exact Hrep.
Qed.

End DocCheckerFacts.

(** ** The checklist on sample uploads *)
Module DocCheckerRuns.
Import DocChecker Notions Samples.

Lemma identify_sample :
  identify_process_from_filenames sample_uploads sample_checklists
  = Ok (Some COMPANY_INCORPORATION, [ "Articles of Association" ]).
Proof. vm_compute. reflexivity. Qed.

Example identify_nothing_uploaded :
  identify_process_from_filenames [] sample_checklists = Ok (None, []).
Proof. reflexivity. Qed.

Example identify_unrelated_upload :
  identify_process_from_filenames [ "tmp_uploads/notes.docx" ]
    sample_checklists
  = Ok (Some COMPANY_INCORPORATION, []).
Proof. vm_compute. reflexivity. Qed.

Lemma identify_process_default_witness :
  (sample_uploads = [] ->
   Some COMPANY_INCORPORATION = None
   /\ [ "Articles of Association" ] = ([] : list string))
  /\ (sample_uploads <> [] ->
      Some COMPANY_INCORPORATION = Some COMPANY_INCORPORATION).
Proof.
  apply (DocCheckerFacts.identify_process_default sample_uploads
           sample_checklists (Some COMPANY_INCORPORATION)
           [ "Articles of Association" ]).
  exact identify_sample.
Defined.

Lemma identify_process_raises_iff_witness :
  exists e,
    identify_process_from_filenames sample_uploads blank_checklists = Raise e.
Proof.
  apply (proj2 (proj1 (DocCheckerFacts.identify_process_raises_iff
                         sample_uploads blank_checklists))).
  split; [vm_compute; reflexivity|].
  exists "  ". split; [vm_compute; right; left; reflexivity|].
  vm_compute. reflexivity.
Defined.

Lemma identify_process_matched_witness :
  [ "Articles of Association" ]
  = (if mentions_incorporation (lower_names_of sample_uploads)
     then filter (names_mention (lower_names_of sample_uploads))
            (required_for (Some COMPANY_INCORPORATION) sample_checklists)
     else [])
  /\ forall r, In r [ "Articles of Association" ] ->
               In r (required_for (Some COMPANY_INCORPORATION)
                       sample_checklists)
               /\ exists w n,
                    first_word (lower r) = Some w
                    /\ In n (lower_names_of sample_uploads)
                    /\ contains w n = true.
Proof.
  apply (DocCheckerFacts.identify_process_matched sample_uploads
           sample_checklists (Some COMPANY_INCORPORATION)).
  exact identify_sample.
Defined.

Lemma checklist_report_adds_up_witness :
  let report :=
    checklist_results (Some COMPANY_INCORPORATION)
      [ "Articles of Association" ] sample_checklists in
  documents_uploaded report + List.length (missing_documents report)
  = required_documents report
  /\ forall d, In d (required_for (Some COMPANY_INCORPORATION)
                       sample_checklists) ->
               (In d [ "Articles of Association" ]
                <-> ~ In d (missing_documents report)).
Proof.
  apply (DocCheckerFacts.checklist_report_adds_up sample_uploads
           sample_checklists (Some COMPANY_INCORPORATION)
           [ "Articles of Association" ]).
  exact identify_sample.
Defined.

Example checklist_sample_report :
  checklist_results (Some COMPANY_INCORPORATION) [ "Articles of Association" ]
    sample_checklists
  = mk_report (Some COMPANY_INCORPORATION) 1 3
      [ "Memorandum of Association"; "Register of Members and Directors" ].
Proof. vm_compute. reflexivity. Qed.

End DocCheckerRuns.

(** ** The reviewed document *)
Module DocUtilsFacts.
Import DocUtils Notions.

Lemma list_sum_add {A} (f g : A -> nat) (l : list A) :
  list_sum (map f l) + list_sum (map g l)
  = list_sum (map (fun a => f a + g a) l).
Proof.
  unfold list_sum. induction l as [|a l IH]; cbn [map fold_right];
    [reflexivity | lia].
Qed.

Lemma list_sum_indicator {A} (test : A -> bool) (l : list A) :
  list_sum (map (fun a => if test a then 1 else 0) l)
  = List.length (filter test l).
Proof.
  unfold list_sum. induction l as [|a l IH]; cbn [map fold_right filter];
    [reflexivity|].
  destruct (test a); cbn [List.length]; lia.
Qed.

Lemma within_spec (i : Z) (n : nat) (a : review) :
  within i n a = true
  <-> (i <= paragraph_index (base a) < i + Z.of_nat n)%Z.
Proof.
  unfold within. rewrite andb_true_iff, Z.leb_le, Z.ltb_lt. tauto.
Qed.

Lemma within_step (i : Z) (n : nat) (a : review) :
  within i (S n) a
  = (paragraph_index (base a) =? i)%Z || within (i + 1) n a.
Proof.
  apply Bool.eq_iff_eq_true.
  rewrite orb_true_iff, !within_spec, Z.eqb_eq. lia.
Qed.

Lemma within_exclusive (i : Z) (n : nat) (a : review) :
  (paragraph_index (base a) =? i)%Z = true -> within (i + 1) n a = false.
Proof.
  intros H. apply Z.eqb_eq in H.
  destruct (within (i + 1) n a) eqn:E; [|reflexivity].
  apply within_spec in E. lia.
Qed.

Lemma within_nothing (i : Z) (a : review) : within i 0 a = false.
Proof.
  destruct (within i 0 a) eqn:E; [|reflexivity].
  apply within_spec in E. lia.
Qed.

Section Review.
Variable float_nonzero : string -> bool.

Lemma count_matched (P : out_paragraph -> bool) (anns : list review) (i : Z) :
  List.length (filter P (flat_map (notes_for float_nonzero) (matched_at anns i)))
  = list_sum (map (fun a => if (paragraph_index (base a) =? i)%Z
                            then weight float_nonzero P a else 0) anns).
Proof.
  induction anns as [|a anns IH]; [reflexivity|].
  unfold matched_at in *. cbn [filter map list_sum].
  destruct (paragraph_index (base a) =? i)%Z.
  - cbn [flat_map]. rewrite filter_app, length_app, IH. reflexivity.
  - rewrite IH. reflexivity.
Qed.

Lemma count_reviewed (P : out_paragraph -> bool) :
  (forall runs, P (Copied runs) = false) ->
  forall (ps : docx) (anns : list review) (i : Z),
    List.length (filter P (reviewed_from float_nonzero ps anns i))
    = list_sum (map (fun a => if within i (List.length ps) a
                              then weight float_nonzero P a else 0) anns).
Proof.
  intros Hcopied ps. induction ps as [|p ps IH]; intros anns i.
  - cbn [DocUtils.reviewed_from filter List.length].
    rewrite (map_ext _ (fun _ => 0))
      by (intros a; rewrite within_nothing; reflexivity).
    induction anns as [|a anns IHa]; [reflexivity | exact IHa].
  - cbn [DocUtils.reviewed_from filter]. rewrite Hcopied.
    rewrite filter_app, length_app, count_matched, IH, list_sum_add.
    f_equal. apply map_ext. intros a. cbn [List.length].
    rewrite within_step.
    destruct (paragraph_index (base a) =? i)%Z eqn:E; cbn [orb].
    + rewrite (within_exclusive i _ a E). lia.
    + reflexivity.
Qed.

Lemma notes_never_copied (l : list review) :
  filter is_copied (flat_map (notes_for float_nonzero) l) = [].
Proof.
  induction l as [|a l IH]; [reflexivity|].
  cbn [flat_map]. rewrite filter_app, IH, app_nil_r.
  unfold DocUtils.notes_for. cbn [filter is_copied].
  rewrite filter_app.
  destruct (truthy_value float_nonzero (suggestion a)), (truthy_value float_nonzero (citation a));
    reflexivity.
Qed.

Lemma reviewed_from_within (ps : docx) (keep : review -> bool) :
  forall (anns : list review) (i : Z),
    (forall a, within i (List.length ps) a = true -> keep a = true) ->
    reviewed_from float_nonzero ps (filter keep anns) i = reviewed_from float_nonzero ps anns i.
Proof.
  induction ps as [|p ps IH]; intros anns i Hkeep; [reflexivity|].
  cbn [DocUtils.reviewed_from]. f_equal. f_equal.
  - f_equal. unfold matched_at. clear IH.
    induction anns as [|a anns IHa]; [reflexivity|].
    cbn [filter]. destruct (keep a) eqn:Ek; cbn [filter].
    + rewrite IHa. reflexivity.
    + destruct (paragraph_index (base a) =? i)%Z eqn:E; [|exact IHa].
      rewrite Hkeep in Ek; [discriminate|].
      cbn [List.length]. rewrite within_step, E. reflexivity.
  - apply IH. intros a Ha. apply Hkeep. cbn [List.length].
    rewrite within_step, Ha. apply orb_true_r.
Qed.


(** X14.  The new document keeps every paragraph of the original, run
    text by run text and in the original order, whatever the annotations:
    what is added only comes in between. *)
Theorem reviewed_document_keeps_original (doc : docx)
  (annotations : list review) :
  filter is_copied (reviewed_document float_nonzero doc annotations)
  = map Copied doc.
Proof.
  unfold DocUtils.reviewed_document. generalize 0%Z.
  induction doc as [|p doc IH]; intros i; [reflexivity|].
  cbn [DocUtils.reviewed_from filter is_copied map].
  rewrite filter_app, notes_never_copied, IH. reflexivity.
Qed.

(** X15.  An annotation whose paragraph index is negative or not below
    the number of paragraphs is left out without a trace: the new
    document is the one made from the annotations in range alone, and it
    has exactly one review note for each of these. *)
Theorem reviewed_document_drops_out_of_range (doc : docx)
  (annotations : list review) :
  reviewed_document float_nonzero doc annotations
  = reviewed_document float_nonzero doc (filter (in_range (List.length doc)) annotations)
  /\ List.length (filter is_note (reviewed_document float_nonzero doc annotations))
     = List.length (filter (in_range (List.length doc)) annotations).
Proof.
  unfold DocUtils.reviewed_document. split.
  - symmetry. apply reviewed_from_within. intros a Ha. exact Ha.
  - rewrite (count_reviewed is_note) by reflexivity.
    rewrite <- list_sum_indicator. f_equal. apply map_ext. intros a.
    change (within 0 (List.length doc) a) with (in_range (List.length doc) a).
    destruct (in_range (List.length doc) a); [|reflexivity].
    unfold weight, DocUtils.notes_for. cbn [filter is_note].
    rewrite filter_app.
    destruct (truthy_value float_nonzero (suggestion a)), (truthy_value float_nonzero (citation a));
      reflexivity.
Qed.

(** X16.  A suggestion paragraph is written exactly for the annotations in
    range whose suggestion is a true value, and a citation paragraph
    exactly for those whose citation is one: [None], the empty string and
    a missing key give no paragraph. *)
Theorem reviewed_document_optional_paragraphs (doc : docx)
  (annotations : list review) :
  List.length (filter is_suggestion (reviewed_document float_nonzero doc annotations))
  = List.length
      (filter (fun a => in_range (List.length doc) a
                        && truthy_value float_nonzero (suggestion a)) annotations)
  /\ List.length (filter is_citation (reviewed_document float_nonzero doc annotations))
     = List.length
         (filter (fun a => in_range (List.length doc) a
                           && truthy_value float_nonzero (citation a)) annotations).
Proof.
  unfold DocUtils.reviewed_document. split.
  - rewrite (count_reviewed is_suggestion) by reflexivity.
    rewrite <- list_sum_indicator. f_equal. apply map_ext. intros a.
    change (within 0 (List.length doc) a) with (in_range (List.length doc) a).
    destruct (in_range (List.length doc) a); [|reflexivity].
    unfold weight, DocUtils.notes_for. cbn [filter is_suggestion andb].
    rewrite filter_app.
    destruct (truthy_value float_nonzero (suggestion a)), (truthy_value float_nonzero (citation a));
      reflexivity.
  - rewrite (count_reviewed is_citation) by reflexivity.
    rewrite <- list_sum_indicator. f_equal. apply map_ext. intros a.
    change (within 0 (List.length doc) a) with (in_range (List.length doc) a).
    destruct (in_range (List.length doc) a); [|reflexivity].
    unfold weight, DocUtils.notes_for. cbn [filter is_citation andb].
    rewrite filter_app.
    destruct (truthy_value float_nonzero (suggestion a)), (truthy_value float_nonzero (citation a));
      reflexivity.
Qed.

End Review.

End DocUtilsFacts.

(** ** The review of one file *)
Module ReviewFacts.
Import DocUtils AppFlow Notions.

Lemma filter_all {A} (f : A -> bool) (l : list A) :
  (forall a, In a l -> f a = true) -> filter f l = l.
Proof.
  induction l as [|a l IH]; intros H; [reflexivity|].
  cbn [filter]. rewrite (H a (or_introl eq_refl)).
  rewrite IH by (intros b Hb; apply H; right; exact Hb). reflexivity.
Qed.

Lemma length_zero_nil {A} (l : list A) : List.length l = 0 -> l = [].
Proof. destruct l; [reflexivity | discriminate]. Qed.

Lemma list_sum_zero {A} (f : A -> nat) (l : list A) :
  (forall a, In a l -> f a = 0) -> list_sum (map f l) = 0.
Proof.
  unfold list_sum. induction l as [|a l IH]; intros H; cbn [map fold_right];
    [reflexivity|].
  rewrite (H a (or_introl eq_refl)).
  rewrite IH by (intros b Hb; apply H; right; exact Hb). reflexivity.
Qed.

(** No suggestion paragraph without an annotation that has a suggestion. *)
Lemma no_suggestion_paragraph (float_nonzero : string -> bool) (doc : docx)
  (anns : list review) :
  (forall a, In a anns -> suggestion a = PNone) ->
  filter is_suggestion (reviewed_document float_nonzero doc anns) = [].
Proof.
  intros Hnone. apply length_zero_nil. unfold reviewed_document.
  rewrite (DocUtilsFacts.count_reviewed float_nonzero is_suggestion)
    by reflexivity.
  apply list_sum_zero. intros a Ha.
  destruct (within 0 (List.length doc) a); [|reflexivity].
  unfold weight, notes_for. rewrite (Hnone a Ha).
  cbn [truthy_value filter is_suggestion app].
  destruct (truthy_value float_nonzero (citation a)); reflexivity.
Qed.

Lemma no_citation_paragraph (float_nonzero : string -> bool) (doc : docx)
  (anns : list review) :
  (forall a, In a anns -> citation a = PNone) ->
  filter is_citation (reviewed_document float_nonzero doc anns) = [].
Proof.
  intros Hnone. apply length_zero_nil. unfold reviewed_document.
  rewrite (DocUtilsFacts.count_reviewed float_nonzero is_citation)
    by reflexivity.
  apply list_sum_zero. intros a Ha.
  destruct (within 0 (List.length doc) a); [|reflexivity].
  unfold weight, notes_for. rewrite (Hnone a Ha).
  cbn [truthy_value filter is_citation app].
  destruct (truthy_value float_nonzero (suggestion a)); reflexivity.
Qed.

Section Review.
Context {RE : Regex} {VS : VectorStore}.
Variable W : Type.
Variable json_loads : string -> result pyval.
Variable float_nonzero : string -> bool.

(** X17.  Rule-based checks and reviewed document fit together: for a
    document with at least one paragraph every annotation that
    [run_all_checks] returns on the text that [read_docx_text] reads gets
    its review note; for a document without paragraphs the new document is
    empty, so that the note on the missing signature block, which the
    check still returns when no signature phrase is found in the empty
    text, is lost. *)
Theorem every_annotation_is_written (doc : docx) :
  let text := fst (read_docx_text doc) in
  let paragraphs := snd (read_docx_text doc) in
  let anns := map plain (run_all_checks text paragraphs) in
  (doc <> [] ->
   List.length (filter is_note (reviewed_document float_nonzero doc anns))
   = List.length anns)
  /\ (doc = [] ->
      reviewed_document float_nonzero doc anns = []
      /\ (re_search signature_pattern "" = false -> anns <> [])).
Proof.
  intros text paragraphs anns. split.
  - intros Hne. unfold reviewed_document.
    rewrite (DocUtilsFacts.count_reviewed float_nonzero is_note)
      by reflexivity.
    rewrite (map_ext_in _ (fun _ => 1)).
    + clear. induction anns as [|a l IH]; [reflexivity|].
      cbn [map list_sum List.length]. unfold list_sum in *.
      cbn [fold_right]. rewrite IH. reflexivity.
    + intros a Ha. unfold anns in Ha. apply in_map_iff in Ha.
      destruct Ha as (ann & <- & Hann). unfold run_all_checks in Hann.
      apply in_map_iff in Hann. destruct Hann as (iss & <- & _).
      destruct (AnnotatorFacts.locate_in_range iss paragraphs) as [H0 Hlt].
      assert (Hlen : List.length paragraphs = List.length doc)
        by (unfold paragraphs, read_docx_text; cbn [snd]; apply length_map).
      assert (Hp : paragraphs <> []).
      { intros Hnil. rewrite Hnil in Hlen. destruct doc; [contradiction|].
        discriminate. }
      specialize (Hlt Hp). rewrite Hlen in Hlt.
      replace (within 0 (List.length doc) (plain (map_issue paragraphs iss)))
        with true.
      * unfold weight, notes_for. cbn [plain suggestion citation truthy_value].
        reflexivity.
      * symmetry. apply DocUtilsFacts.within_spec.
        cbn [plain base map_issue paragraph_index]. lia.
  - intros ->. split; [reflexivity|].
    intros Hsig. unfold anns, text, paragraphs, read_docx_text.
    cbn [map fst snd join String.concat].
    unfold run_all_checks, all_issues, detect_missing_signature_block.
    cbn [join String.concat]. rewrite Hsig.
    rewrite !map_app. intros H. apply app_eq_nil in H. destruct H as [_ H].
    apply app_eq_nil in H. destruct H as [_ H]. discriminate.
Qed.

(** X19.  With no store loaded the review of a file makes no clause check:
    it returns the rule-based rows only, one for each annotation, leaves
    the world as it was, and the reviewed document shows review notes
    without any suggestion or citation paragraph. *)
Theorem review_without_store (path : string) (doc : docx)
  (llm : option (Backend W)) (w : W) :
  let anns :=
    run_all_checks (fst (read_docx_text doc)) (snd (read_docx_text doc)) in
  let reviewed := reviewed_document float_nonzero doc (map plain anns) in
  review_file W json_loads float_nonzero path doc None llm w
  = (Ok (map (rule_row path) anns, reviewed), w)
  /\ filter is_suggestion reviewed = []
  /\ filter is_citation reviewed = [].
Proof.
  intros anns reviewed. split; [|split].
  - unfold review_file, rag_stage. cbn [read_docx_text fst snd] in *.
    rewrite app_nil_r. reflexivity.
  - apply no_suggestion_paragraph. intros a Ha.
    apply in_map_iff in Ha. destruct Ha as (ann & <- & _). reflexivity.
  - apply no_citation_paragraph. intros a Ha.
    apply in_map_iff in Ha. destruct Ha as (ann & <- & _). reflexivity.
Qed.

End Review.

End ReviewFacts.

(** ** The clause checks of one file *)
Module RagStageFacts.
Import DocUtils AppFlow Notions.

Section Stage.
Context {VS : VectorStore}.
Variable W : Type.
Variable json_loads : string -> result pyval.

Lemma extract_json_is_dict (raw context : string) :
  json_object_law json_loads ->
  exists d, extract_json json_loads raw context = PDict d.
Proof.
  intros Hlaw. unfold extract_json.
  destruct (json_loads (slice raw (find raw "{") (rfind raw "}" + 1)))
    as [v|e] eqn:E; [|eexists; reflexivity].
  apply (Hlaw (slice raw (find raw "{") (rfind raw "}" + 1)) v); [|exact E].
  destruct (Z.eq_dec (find raw "{") (-1)) as [Hf|Hf].
  - destruct (ExtractFacts.cut_without_open raw Hf); tauto.
  - destruct (ExtractFacts.cut_with_open raw Hf); tauto.
Qed.

(** What comes out of the caller's [try]: a dict, or an exception
    outside of the class [Exception] that the store or the handle
    raised. *)
Lemma rag_result_cases (para_text : string) (vs : FAISS)
  (llm : option (Backend W)) (w : W) :
  json_object_law json_loads ->
  match App.rag_result_for W json_loads para_text (Some vs) llm w with
  | (Ok v, _) => exists d, v = PDict d
  | (Raise e, _) =>
      isinstance_Exception e = false /\ raised_by_backends vs llm e
  end.
Proof.
  intros Hlaw. unfold App.rag_result_for, check_clause_with_rag.
  destruct (similarity_search vs para_text 3) as [docs|e] eqn:Hsearch.
  - destruct llm as [h|]; [|eexists; reflexivity].
    destruct (_call_llm_tolerant W (Some h)
                (PROMPT_TEMPLATE para_text (context_of docs)) w)
      as [[raw|e] w'] eqn:Hcall.
    + apply extract_json_is_dict. exact Hlaw.
    + destruct (AdapterFacts.adapter_raise_origin W h _ w e w' Hcall)
        as [[Hclass _] | [Hclass Hfrom]]; rewrite Hclass.
      * eexists; reflexivity.
      * rewrite Hclass. split; [exact Hclass|].
        right. exists h. eexists. eexists. split; [reflexivity | exact Hfrom].
  - destruct (isinstance_Exception e) eqn:Hclass.
    + eexists; reflexivity.
    + split; [exact Hclass|]. left. exists para_text. exact Hsearch.
Qed.

Lemma rag_step_cases (path : string) (paragraphs : list string) (vs : FAISS)
  (llm : option (Backend W)) (ann : review) (w : W) :
  json_object_law json_loads ->
  index_readable paragraphs ann ->
  match rag_step W json_loads path paragraphs vs llm ann w with
  | (Ok (ann', row), _) =>
      base ann' = base ann
      /\ row_paragraph_index row = paragraph_index (base ann)
      /\ row_rag row <> None
  | (Raise e, _) =>
      isinstance_Exception e = false /\ raised_by_backends vs llm e
  end.
Proof.
  intros Hlaw Hidx. unfold rag_step.
  destruct (AnnotatorFacts.paragraph_at_ok paragraphs _ Hidx)
    as [para_text Hat].
  rewrite Hat.
  pose proof (rag_result_cases para_text vs llm w Hlaw) as Hres.
  destruct (App.rag_result_for W json_loads para_text (Some vs) llm w)
    as [[rag_result|e] w']; [|exact Hres].
  destruct Hres as [d ->]. cbn [py_get bind].
  cbn. repeat split. discriminate.
Qed.

Lemma rag_steps_cases (path : string) (paragraphs : list string) (vs : FAISS)
  (llm : option (Backend W)) :
  json_object_law json_loads ->
  forall (anns : list review) (w : W),
    Forall (index_readable paragraphs) anns ->
    match rag_steps W json_loads path paragraphs vs llm anns w with
    | (Ok (anns', rows), _) =>
        map base anns' = map base anns
        /\ map row_paragraph_index rows
           = map (fun a => paragraph_index (base a)) anns
        /\ Forall (fun row => row_rag row <> None) rows
    | (Raise e, _) =>
        isinstance_Exception e = false /\ raised_by_backends vs llm e
    end.
Proof.
  intros Hlaw anns. induction anns as [|ann anns IH]; intros w Hidx.
  - cbn [rag_steps map]. repeat split. constructor.
  - cbn [rag_steps]. inversion Hidx as [|? ? Hann Hrest]; subst.
    pose proof (rag_step_cases path paragraphs vs llm ann w Hlaw Hann)
      as Hstep.
    destruct (rag_step W json_loads path paragraphs vs llm ann w)
      as [[[ann' row]|e] w1]; [|exact Hstep].
    destruct Hstep as (Hbase & Hrow & Hrag).
    specialize (IH w1 Hrest).
    destruct (rag_steps W json_loads path paragraphs vs llm anns w1)
      as [[[anns' rows]|e] w2]; [|exact IH].
    destruct IH as (Hbases & Hrows & Hrags).
    cbn [map]. rewrite Hbase, Hbases, Hrow, Hrows.
    repeat split. constructor; assumption.
Qed.

(** X18.  Let [json.loads] return nothing but dicts on the texts the
    clause check can hand to it, and let no paragraph index be below
    [-len(paragraphs)], as is the case for the indexes that
    [run_all_checks] gives, which are not negative.  Then no exception
    of the class [Exception] leaves the clause checks of a file,
    whatever the store, the handle and the replies: the lookup of the
    paragraph and the [.get] calls that the script makes outside of its
    [try] do not raise.  The stage either yields one row with the four
    clause-check fields for each annotation, in order and with the
    paragraph index of the annotation, changing nothing in an annotation
    but its suggestion and citation; or it passes on an exception
    outside of the class [Exception], which the search of the store or
    a call on the handle raised. *)
Theorem rag_stage_lets_no_error_out (path : string)
  (paragraphs : list string) (vectorstore : option FAISS)
  (llm : option (Backend W)) (anns : list review) (w : W) :
  json_object_law json_loads ->
  Forall (index_readable paragraphs) anns ->
  match rag_stage W json_loads path paragraphs vectorstore llm anns w with
  | (Ok (anns', rows), w') =>
      map base anns' = map base anns
      /\ (vectorstore = None -> rows = [] /\ anns' = anns /\ w' = w)
      /\ (vectorstore <> None ->
          map row_paragraph_index rows
          = map (fun a => paragraph_index (base a)) anns
          /\ Forall (fun row => row_rag row <> None) rows)
  | (Raise e, _) =>
      isinstance_Exception e = false
      /\ exists vs, vectorstore = Some vs /\ raised_by_backends vs llm e
  end.
Proof.
  intros Hlaw Hidx. unfold rag_stage. destruct vectorstore as [vs|].
  - pose proof (rag_steps_cases path paragraphs vs llm Hlaw anns w Hidx)
      as Hrun.
    destruct (rag_steps W json_loads path paragraphs vs llm anns w)
      as [[[anns' rows]|e] w'].
    + destruct Hrun as (Hbases & Hrows & Hrags).
      split; [exact Hbases|]. split; [discriminate | auto].
    + destruct Hrun as [Hclass Hfrom]. split; [exact Hclass|].
      exists vs. split; [reflexivity | exact Hfrom].
  - split; [reflexivity|]. split; [auto | intros H; contradiction].
Qed.


End Stage.

Section Review.
Context {RE : Regex} {VS : VectorStore}.
Variable W : Type.
Variable json_loads : string -> result pyval.
Variable float_nonzero : string -> bool.



End Review.

End RagStageFacts.

(** ** The review in the in-memory world *)
Module ReviewRuns.
Import DocUtils AppFlow Notions Samples.

Ltac split_match :=
  match goal with
  | |- context [ match ?x with _ => _ end ] => destruct x eqn:?
  end.

Lemma read_members_dict (fuel : nat) :
  forall s acc r,
    Json.read_members fuel s acc = Some r -> exists d, fst r = PDict d.
Proof.
  induction fuel as [|fuel IH]; intros s acc r; cbn [Json.read_members];
    [discriminate|].
  destruct s as [|c s]; [discriminate|].
  destruct (nat_of_ascii c =? 34)%nat; [|discriminate].
  destruct (Json.read_string s) as [[key rest]|]; [|discriminate].
  destruct (Json.skip_ws rest) as [|c1 rest1]; [discriminate|].
  destruct c1 as [[] [] [] [] [] [] [] []]; try discriminate.
  destruct (Json.read_value fuel (Json.skip_ws rest1)) as [[v rest2]|];
    [|discriminate].
  destruct (Json.skip_ws rest2) as [|c2 rest3]; [discriminate|].
  destruct c2 as [[] [] [] [] [] [] [] []]; try discriminate.
  - intros H. injection H as <-. eexists. reflexivity.
  - apply IH.
Qed.

Lemma read_value_object (fuel : nat) (s : string) (r : pyval * string) :
  Json.read_value fuel (String "{" s) = Some r -> exists d, fst r = PDict d.
Proof.
  destruct fuel as [|fuel]; cbn [Json.read_value]; [discriminate|].
  destruct (Json.skip_ws s) as [|c rest] eqn:E.
  - apply read_members_dict.
  - destruct c as [[] [] [] [] [] [] [] []];
      try apply read_members_dict.
    intros H. injection H as <-. eexists. reflexivity.
Qed.

(** The reader of the in-memory world keeps the law of [json.loads]. *)
Lemma json_loads_object_law : json_object_law Json.loads.
Proof.
  intros t v [-> | [-> | [mid ->]]].
  - vm_compute. discriminate.
  - vm_compute. discriminate.
  - unfold Json.loads.
    change (Json.skip_ws ("{" ++ mid ++ "}")) with (String "{" (mid ++ "}")).
    destruct (Json.read_value _ (String "{" (mid ++ "}"))) as [[v' rest]|] eqn:E;
      [|discriminate].
    destruct (read_value_object _ _ _ E) as [d Hd]. cbn [fst] in Hd. subst v'.
    destruct (Json.skip_ws rest =? ""); [|discriminate].
    intros H. injection H as <-. eexists. reflexivity.
Qed.

Lemma every_annotation_is_written_witness :
  let text := fst (read_docx_text sample_doc) in
  let paragraphs := snd (read_docx_text sample_doc) in
  let anns := map plain (run_all_checks (RE := mem_regex) text paragraphs) in
  List.length (filter is_note
                 (reviewed_document sample_float_nonzero sample_doc anns))
  = List.length anns.
Proof.
  apply (proj1 (ReviewFacts.every_annotation_is_written (RE := mem_regex)
                  sample_float_nonzero sample_doc)).
  discriminate.
Defined.

Example review_sample_without_store :
  fst (review_file (RE := mem_regex) (VS := mem_store) nat Json.loads
         sample_float_nonzero "tmp_uploads/articles.docx" sample_doc None None 0)
  = Ok ([ mk_row "articles.docx" 0 "References DIFC instead of ADGM" "High" None;
          mk_row "articles.docx" 1 "Ambiguous/non-binding phrase: 'may'"
            "Medium" None;
          mk_row "articles.docx" 0 "No signature block detected in document."
            "High" None ],
        [ Copied [ "Disputes are settled by the "; "DIFC"; " courts." ];
          ReviewNote "[REVIEW NOTE - High] References DIFC instead of ADGM";
          ReviewNote
            "[REVIEW NOTE - High] No signature block detected in document.";
          Copied [ "The company may act." ];
          ReviewNote
            "[REVIEW NOTE - Medium] Ambiguous/non-binding phrase: 'may'" ]).
Proof. vm_compute. reflexivity. Qed.

Example reviewed_sample :
  reviewed_document sample_float_nonzero sample_doc sample_reviews
  = [ Copied [ "Disputes are settled by the "; "DIFC"; " courts." ];
      ReviewNote "[REVIEW NOTE - High] References DIFC instead of ADGM";
      SuggestionPar (PStr "Refer to the ADGM Courts.");
      CitationPar (PStr "[SOURCE: a.txt]");
      Copied [ "The company may act." ];
      ReviewNote "[REVIEW NOTE - Medium] Ambiguous/non-binding phrase: 'may'" ].
Proof. vm_compute. reflexivity. Qed.

Lemma sample_reviews_readable :
  Forall (index_readable (snd (read_docx_text sample_doc))) sample_reviews.
Proof. repeat constructor; unfold index_readable; cbn; lia. Qed.

Lemma rag_stage_lets_no_error_out_witness :
  exists anns' rows w',
    rag_stage (VS := mem_store) nat Json.loads "tmp_uploads/articles.docx"
      (snd (read_docx_text sample_doc)) (Some sample_store)
      (Some (says "Here you are: {} .")) sample_reviews 0
    = (Ok (anns', rows), w')
    /\ map base anns' = map base sample_reviews
    /\ map row_paragraph_index rows
       = map (fun a => paragraph_index (base a)) sample_reviews
    /\ Forall (fun row => row_rag row <> None) rows.
Proof.
  pose proof (RagStageFacts.rag_stage_lets_no_error_out (VS := mem_store) nat
                Json.loads "tmp_uploads/articles.docx"
                (snd (read_docx_text sample_doc)) (Some sample_store)
                (Some (says "Here you are: {} .")) sample_reviews 0
                json_loads_object_law sample_reviews_readable) as Hrun.
  destruct (rag_stage (VS := mem_store) nat Json.loads
              "tmp_uploads/articles.docx" (snd (read_docx_text sample_doc))
              (Some sample_store) (Some (says "Here you are: {} ."))
              sample_reviews 0) as [[[anns' rows]|e] w'].
  - exists anns', rows, w'. destruct Hrun as (Hbases & _ & Hrows).
    split; [reflexivity|]. split; [exact Hbases|].
    apply Hrows. discriminate.
  - exfalso. destruct Hrun as (_ & vs & Hvs & Hfrom).
    destruct Hfrom as [[query Hq] | (h & prompt & w1 & Hh & Hcall)].
    + discriminate Hq.
    + injection Hh as <-.
      destruct Hcall as [[w0 H0] | [(f & w0 & Hf & _) | (f & w0 & Hf & _)]];
        discriminate.
Defined.


(** With a parser that returns a list, the [.get] outside of the [try]
    raises and ends the review. *)
Example rag_stage_raises_on_list :
  fst (rag_stage (VS := mem_store) nat (fun _ => Ok (PList []))
         "tmp_uploads/articles.docx" (snd (read_docx_text sample_doc))
         (Some sample_store) (Some (says "[]")) sample_reviews 0)
  = Raise (mk_exn AttributeError "'list' object has no attribute 'get'").
Proof. vm_compute. reflexivity. Qed.

(** An index below [-len(paragraphs)] makes the lookup raise, before the
    [try], and ends the review. *)
Example rag_stage_raises_on_low_index :
  rag_stage (VS := mem_store) nat Json.loads "tmp_uploads/articles.docx"
    (snd (read_docx_text sample_doc)) (Some sample_store)
    (Some (says "{}"))
    [ plain (mk_annotation (-3) "may" "Ambiguous/non-binding phrase: 'may'"
               "Medium") ] 0
  = (Raise (mk_exn (OtherError "IndexError") "list index out of range"), 0).
Proof. vm_compute. reflexivity. Qed.

(** An interrupt of the direct call passes the adapter, the clause check
    and the caller's [try], and ends the review after one call. *)
Example rag_stage_raises_on_interrupt :
  rag_stage (VS := mem_store) nat Json.loads "tmp_uploads/articles.docx"
    (snd (read_docx_text sample_doc)) (Some sample_store)
    (Some (interrupted "{}")) sample_reviews 0
  = (Raise (mk_exn KeyboardInterrupt ""), 1).
Proof. vm_compute. reflexivity. Qed.

End ReviewRuns.
